(** * OctoEverywhere hosts and fleet updater: a shallow embedding

    Covers [moonraker_octoeverywhere/moonrakerhost.py],
    [bambu_octoeverywhere/bambuhost.py] and [moonraker_installer/Updater.py].

    Execution model.  The Python methods run in a small state-and-exception
    monad [M].  The world holds the persisted identity (printer id and
    private key, each possibly [None]) and a chronological trace of
    observable events: log lines, prints, crash reports and calls into
    external collaborators.  What the collaborators do (raise, return a
    version string, list a directory, run a shell command) is read from an
    environment record [Env], so every theorem quantifies over all their
    behaviours.  Python exceptions carry their class: [except Exception]
    catches [Exception] subclasses only, not [KeyboardInterrupt] or
    [SystemExit]. *)

From Stdlib Require Import String Ascii List Bool ZArith Lia.
From Stdlib Require Import Sorted Permutation Mergesort Orders.
Import ListNotations.
Open Scope string_scope.

(** ** Python exceptions *)

(** [PyException] is a subclass of [Exception]; [PyBaseOnly] is a
    [BaseException] outside it ([KeyboardInterrupt], [SystemExit]). *)
Inductive ExnClass := PyException | PyBaseOnly.

Record Exn := mkExn { exn_class : ExnClass; exn_msg : string }.

Definition is_Exception (e : Exn) : bool :=
  match exn_class e with PyException => true | PyBaseOnly => false end.

(** ** Observable events *)

Inductive Level := LDebug | LInfo | LWarning | LError | LHeader | LPurple | LBlank.

(** Calls into collaborators that live outside the three source files. *)
Inductive Call :=
  | CVersionGetPluginVersion
  | CEnsureUpdateManagerFilesSetup
  | CSecretsInit
  | CConfigSetStr (section key value : string)
  | CSecretsSetPrinterId (value : string)
  | CSecretsSetPrivateKey (value : string)
  | CEnsureAllowedServicesFile
  | CConfigGetInt
  | CTelemetryInit
  | CTelemetrySetServerProtocolAndDomain (url : string)
  | CMDnsInit
  | COctoHttpRequestSetLocalHttpProxyPort (port : Z)
  | COctoHttpRequestSetLocalHttpProxyIsHttps (b : bool)
  | COctoHttpRequestSetLocalOctoPrintPort (port : Z)
  | COctoPingPongInit (printerId : option string)
  | COctoPingPongDisablePrimaryOverride
  | CSnapshotHelperInit
  | CMoonrakerClientInit (printerId : option string)
  | CBambuWebcamHelperCreate
  | CWebcamHelperInit
  | CBambuCommandHandlerCreate
  | CCommandHandlerInit
  | CBambuClientCreate
  | CBambuClientDoesNothing
  | CUiPopupInvokerCreate
  | COctoEverywhereCreate (uri : string) (printerId privateKey : option string) (version : string)
  | COctoEverywhereRunBlocking
  | CMoonrakerClientStartRunningIfNotAlready (octoKey : string)
  | CLoggingShutdown
  | CListDir
  | CRunShellCommand (cmd : string).

Inductive Event :=
  | EvLog (lvl : Level) (msg : string)
  | EvPrint (msg : string)
  | EvSentryException (msg : string) (e : Exn)
  | EvCall (c : Call).

(** ** World, environment and the monad *)

Record World := mkWorld {
  w_printer_id : option string;
  w_private_key : option string;
  w_trace : list Event
}.

Record Env := mkEnv {
  env_raises : Call -> option Exn;      (** the exception a call raises, if any *)
  env_plugin_version : string;          (** what [Version.GetPluginVersion] returns *)
  env_frontend_port : Z;                (** what [Config.GetInt] returns *)
  env_rand_pid : nat -> nat;            (** random draws of [GeneratePrinterId] *)
  env_rand_key : nat -> nat;            (** random draws of [GeneratePrivateKey] *)
  env_listdir : list string;            (** [os.listdir(SystemdServiceFilePath)] *)
  env_shell : string -> Z * string      (** [Util.RunShellCommand]: (returnCode, output) *)
}.

Inductive Result (A : Type) := Ok (a : A) | Raise (e : Exn).
Arguments Ok {A} a.
Arguments Raise {A} e.

Definition M (A : Type) : Type := World -> Result A * World.

Definition ret {A} (a : A) : M A := fun w => (Ok a, w).

Definition bind {A B} (m : M A) (k : A -> M B) : M B :=
  fun w => match m w with
           | (Ok a, w') => k a w'
           | (Raise e, w') => (Raise e, w')
           end.

Declare Scope monad_scope.
Notation "x <- m ;; k" := (bind m (fun x => k))
  (at level 61, m at next level, right associativity) : monad_scope.
Notation "m ;; k" := (bind m (fun _ => k))
  (at level 61, right associativity) : monad_scope.
Open Scope monad_scope.

Definition raise {A} (e : Exn) : M A := fun w => (Raise e, w).

Definition emit (ev : Event) : M unit :=
  fun w => (Ok tt, {| w_printer_id := w_printer_id w;
                      w_private_key := w_private_key w;
                      w_trace := w_trace w ++ [ev] |}).

(** [try: body except Exception as e: handler(e)] *)
Definition try_except {A} (body : M A) (handler : Exn -> M A) : M A :=
  fun w => match body w with
           | (Raise e, w') => if is_Exception e then handler e w' else (Raise e, w')
           | r => r
           end.

(** A call into a collaborator: recorded as attempted, then it raises or
    returns as the environment says. *)
Definition ext (env : Env) (c : Call) : M unit :=
  emit (EvCall c) ;;
  match env_raises env c with
  | Some e => raise e
  | None => ret tt
  end.

Definition log (lvl : Level) (msg : string) : M unit := emit (EvLog lvl msg).
Definition log_info := log LInfo.
Definition log_warning := log LWarning.

(** [Sentry.Exception(msg, e)]. Modelled from the spec: the crash-reporting
    collaborator records the report and does not raise (spec 4.3). *)
Definition SentryException (msg : string) (e : Exn) : M unit :=
  emit (EvSentryException msg e).

Definition py_print (msg : string) : M unit := emit (EvPrint msg).

(** ** Identity validator and generators (HostCommon)

    Modelled from the spec (section 4.1): [HostCommon] is not part of the
    sources.  An identifier is a fixed-length token over an upper-case
    alphanumeric alphabet; a private key is any string of at least a
    minimum length; the generators draw each character from a random
    source and pass the validators. *)

Definition c_PrinterIdLength : nat := 60.
Definition c_PrivateKeyLength : nat := 80.

Definition token_alphabet : list ascii :=
  list_ascii_of_string "ABCDEFGHIJKLMNOPQRSTUVWXYZ0123456789".

Definition in_alphabet (c : ascii) : bool := existsb (Ascii.eqb c) token_alphabet.

Definition pick_char (k : nat) : ascii :=
  nth (k mod List.length token_alphabet) token_alphabet "A"%char.

Definition random_token (r : nat -> nat) (n : nat) : string :=
  string_of_list_ascii (map (fun i => pick_char (r i)) (seq 0 n)).

(** Modelled from the spec: [HostCommon.IsPrinterIdValid]. *)
Definition IsPrinterIdValid (printerId : option string) : bool :=
  match printerId with
  | None => false
  | Some s => (String.length s =? c_PrinterIdLength)%nat
              && forallb in_alphabet (list_ascii_of_string s)
  end.

(** Modelled from the spec: [HostCommon.IsPrivateKeyValid]. *)
Definition IsPrivateKeyValid (privateKey : option string) : bool :=
  match privateKey with
  | None => false
  | Some s => (c_PrivateKeyLength <=? String.length s)%nat
  end.

(** Modelled from the spec: [HostCommon.GeneratePrinterId]. *)
Definition GeneratePrinterId (r : nat -> nat) : string := random_token r c_PrinterIdLength.

(** Modelled from the spec: [HostCommon.GeneratePrivateKey]. *)
Definition GeneratePrivateKey (r : nat -> nat) : string := random_token r c_PrivateKeyLength.

(** Modelled from the spec: [HostCommon.GetAddPrinterUrl(printerId, False)],
    a self-service linking URL derived from the printer id. *)
Definition GetAddPrinterUrl (printerId : string) : string :=
  "https://octoeverywhere.com/getstarted?isFromOctoPrint=false&printerid=" ++ printerId.

Definition c_OctoEverywhereOctoClientWsUri : string := "wss://starport-v1.octoeverywhere.com/octoclientws".

(** ** Identity store

    Reads never raise ([Config.GetStr] with a [None] default,
    [Secrets.GetPrinterId]).  A write is a collaborator call: when it
    raises the store is unchanged. *)

Definition GetPrinterId : M (option string) := fun w => (Ok (w_printer_id w), w).
Definition GetPrivateKey : M (option string) := fun w => (Ok (w_private_key w), w).

Definition put_printer_id (v : string) : M unit :=
  fun w => (Ok tt, {| w_printer_id := Some v; w_private_key := w_private_key w;
                      w_trace := w_trace w |}).
Definition put_private_key (v : string) : M unit :=
  fun w => (Ok tt, {| w_printer_id := w_printer_id w; w_private_key := Some v;
                      w_trace := w_trace w |}).

(** [Config.ServerSection], [Config.PrinterIdKey], [Config.PrivateKeyKey]. *)
Definition ServerSection : string := "server".
Definition PrinterIdKey : string := "printer_id".
Definition PrivateKeyKey : string := "private_key".

Inductive Host := Moonraker | Bambu.

(** The store write each host issues for the printer id and the key. *)
Definition printer_id_write (h : Host) (v : string) : Call :=
  match h with
  | Moonraker => CConfigSetStr ServerSection PrinterIdKey v
  | Bambu => CSecretsSetPrinterId v
  end.

Definition private_key_write (h : Host) (v : string) : Call :=
  match h with
  | Moonraker => CConfigSetStr ServerSection PrivateKeyKey v
  | Bambu => CSecretsSetPrivateKey v
  end.

Definition SetPrinterId (h : Host) (env : Env) (v : string) : M unit :=
  ext env (printer_id_write h v) ;; put_printer_id v.

Definition SetPrivateKey (h : Host) (env : Env) (v : string) : M unit :=
  ext env (private_key_write h v) ;; put_private_key v.

(** The message both hosts report an exception escaping the run with. *)
Definition host_crash_msg : string := "!! Exception thrown out of main host run function.".

(** ** The Moonraker host ([moonrakerhost.py]) *)

Module MoonrakerHost.

(** [MoonrakerHost.DoFirstTimeSetupIfNeeded]; the identity store is the
    config file's server section.  The hook
    [SystemConfigManager.EnsureAllowedServicesFile] is the first-run setup. *)
Definition DoFirstTimeSetupIfNeeded (env : Env) : M unit :=
  printerId <- GetPrinterId ;;
  isFirstRun <-
    (if negb (IsPrinterIdValid printerId) then
       isFirstRun <-
         (match printerId with
          | None => log_info "No printer id was found, generating one now!" ;; ret true
          | Some _ => log_info "An invalid printer id was found [%s], regenerating!" ;; ret false
          end) ;;
       SetPrinterId Moonraker env (GeneratePrinterId (env_rand_pid env)) ;;
       log_info "New printer id created: %s" ;;
       ret isFirstRun
     else ret false) ;;
  privateKey <- GetPrivateKey ;;
  (if negb (IsPrivateKeyValid privateKey) then
     (match privateKey with
      | None => log_info "No private key was found, generating one now!"
      | Some _ => log_info "An invalid private key was found [%s], regenerating!"
      end) ;;
     SetPrivateKey Moonraker env (GeneratePrivateKey (env_rand_key env)) ;;
     log_info "New private key created."
   else ret tt) ;;
  (if isFirstRun then ext env CEnsureAllowedServicesFile else ret tt).

(** The statements of the first [try] of [RunBlocking] up to the creation
    of the relay client [oe]. *)
Definition RunBlockingSetup (env : Env) : M unit :=
  log_info "##################################" ;;
  log_info "#### OctoEverywhere Starting #####" ;;
  log_info "##################################" ;;
  ext env CVersionGetPluginVersion ;;
  log_info "Plugin Version: %s" ;;
  ext env CEnsureUpdateManagerFilesSetup ;;
  DoFirstTimeSetupIfNeeded env ;;
  printerId <- GetPrinterId ;;
  privateKey <- GetPrivateKey ;;
  ext env CTelemetryInit ;;
  ext env CMDnsInit ;;
  ext env CConfigGetInt ;;
  log_info "Setting up relay with frontend port %s" ;;
  ext env (COctoHttpRequestSetLocalHttpProxyPort (env_frontend_port env)) ;;
  ext env (COctoHttpRequestSetLocalHttpProxyIsHttps false) ;;
  ext env (COctoHttpRequestSetLocalOctoPrintPort (env_frontend_port env)) ;;
  ext env (COctoPingPongInit printerId) ;;
  ext env CSnapshotHelperInit ;;
  ext env (CMoonrakerClientInit printerId) ;;
  ext env CUiPopupInvokerCreate ;;
  ext env (COctoEverywhereCreate c_OctoEverywhereOctoClientWsUri printerId privateKey
                                 (env_plugin_version env)).

(** The body of the first [try] of [RunBlocking]: the setup, then
    [oe.RunBlocking()]. *)
Definition RunBlockingBody (env : Env) : M unit :=
  RunBlockingSetup env ;;
  ext env COctoEverywhereRunBlocking.

(** The log flush after the run, [try: ... logging.shutdown()]. *)
Definition FlushLogs (env : Env) : M unit :=
  try_except
    (log_info "##################################" ;;
     log_info "#### OctoEverywhere Exiting ######" ;;
     log_info "##################################" ;;
     ext env CLoggingShutdown)
    (fun e => py_print ("Exception in logging.shutdown " ++ exn_msg e)).

(** [MoonrakerHost.RunBlocking]. *)
Definition RunBlocking (env : Env) : M unit :=
  try_except (RunBlockingBody env)
    (fun e => SentryException host_crash_msg e) ;;
  FlushLogs env.

(** [MoonrakerHost.OnPrimaryConnectionEstablished]. *)
Definition OnPrimaryConnectionEstablished (env : Env) (octoKey : string)
    (connectedAccounts : option (list string)) : M unit :=
  log_info "Primary Connection To OctoEverywhere Established - We Are Ready To Go!" ;;
  ext env (CMoonrakerClientStartRunningIfNotAlready octoKey).

End MoonrakerHost.

(** ** The Bambu host ([bambuhost.py]) *)

Module BambuHost.

(** [BambuHost.DoFirstTimeSetupIfNeeded]; the identity store is [Secrets]. *)
Definition DoFirstTimeSetupIfNeeded (env : Env) : M unit :=
  printerId <- GetPrinterId ;;
  (if negb (IsPrinterIdValid printerId) then
     (match printerId with
      | None => log_info "No printer id was found, generating one now!"
      | Some _ => log_info "An invalid printer id was found [%s], regenerating!"
      end) ;;
     SetPrinterId Bambu env (GeneratePrinterId (env_rand_pid env)) ;;
     log_info "New printer id created: %s"
   else ret tt) ;;
  privateKey <- GetPrivateKey ;;
  (if negb (IsPrivateKeyValid privateKey) then
     (match privateKey with
      | None => log_info "No private key was found, generating one now!"
      | Some _ => log_info "An invalid private key was found [%s], regenerating!"
      end) ;;
     SetPrivateKey Bambu env (GeneratePrivateKey (env_rand_key env)) ;;
     log_info "New private key created."
   else ret tt).

(** A dev config is [None] or a dict from names to values (possibly [None]). *)
Fixpoint dict_get (d : list (string * option string)) (k : string) : option (option string) :=
  match d with
  | [] => None
  | (k', v) :: d' => if String.eqb k k' then Some v else dict_get d' k
  end.

(** [BambuHost.GetDevConfigStr]. *)
Definition GetDevConfigStr (devConfig : option (list (string * option string)))
    (value : string) : option string :=
  match devConfig with
  | None => None
  | Some d =>
      match dict_get d value with
      | Some (Some v) =>
          if (0 <? String.length v)%nat && negb (String.eqb v "None") then Some v else None
      | _ => None
      end
  end.

Definition when_dev (dev : option string) (m : string -> M unit) : M unit :=
  match dev with Some d => m d | None => ret tt end.

(** The statements of the first [try] of [RunBlocking] up to the creation
    of the relay client [oe]. *)
Definition RunBlockingSetup (env : Env) (devConfig : option (list (string * option string))) : M unit :=
  log_info "##################################" ;;
  log_info "#### OctoEverywhere Starting #####" ;;
  log_info "##################################" ;;
  ext env CVersionGetPluginVersion ;;
  log_info "Plugin Version: %s" ;;
  ext env CSecretsInit ;;
  DoFirstTimeSetupIfNeeded env ;;
  printerId <- GetPrinterId ;;
  privateKey <- GetPrivateKey ;;
  when_dev (GetDevConfigStr devConfig "LocalServerAddress")
    (fun _ => log_warning "~~~ Using Local Dev Server Address: %s ~~~") ;;
  ext env CTelemetryInit ;;
  when_dev (GetDevConfigStr devConfig "LocalServerAddress")
    (fun d => ext env (CTelemetrySetServerProtocolAndDomain ("http://" ++ d))) ;;
  ext env CMDnsInit ;;
  ext env (COctoPingPongInit printerId) ;;
  when_dev (GetDevConfigStr devConfig "LocalServerAddress")
    (fun _ => ext env COctoPingPongDisablePrimaryOverride) ;;
  ext env CBambuWebcamHelperCreate ;;
  ext env CWebcamHelperInit ;;
  ext env CBambuCommandHandlerCreate ;;
  ext env CCommandHandlerInit ;;
  ext env CBambuClientCreate ;;
  ext env CBambuClientDoesNothing ;;
  ext env (COctoEverywhereCreate
             (match GetDevConfigStr devConfig "LocalServerAddress" with
              | Some d => "ws://" ++ d ++ "/octoclientws"
              | None => c_OctoEverywhereOctoClientWsUri
              end)
             printerId privateKey (env_plugin_version env)).

(** The body of the first [try] of [RunBlocking]: the setup, then
    [oe.RunBlocking()]. *)
Definition RunBlockingBody (env : Env) (devConfig : option (list (string * option string))) : M unit :=
  RunBlockingSetup env devConfig ;;
  ext env COctoEverywhereRunBlocking.

Definition FlushLogs := MoonrakerHost.FlushLogs.

(** [BambuHost.RunBlocking]. *)
Definition RunBlocking (env : Env) (devConfig : option (list (string * option string))) : M unit :=
  try_except (RunBlockingBody env devConfig)
    (fun e => SentryException host_crash_msg e) ;;
  FlushLogs env.

Definition tilde_line : string :=
  "~~~~~~~~~~~~~~~~~~~~~~~~~~~~~~~~~~~~~~~~~~~~~~~~~~~~~~~~~~~~~~~~~~".

(** [HostCommon.GetAddPrinterUrl(self.GetPrinterId(), False)]: string
    concatenation with [None] raises a [TypeError]. *)
Definition add_printer_url (printerId : option string) : M string :=
  match printerId with
  | Some s => ret (GetAddPrinterUrl s)
  | None => raise (mkExn PyException "TypeError: can only concatenate str (not NoneType) to str")
  end.

(** [BambuHost.OnPrimaryConnectionEstablished]. *)
Definition OnPrimaryConnectionEstablished (env : Env) (octoKey : string)
    (connectedAccounts : option (list string)) : M unit :=
  log_info "Primary Connection To OctoEverywhere Established - We Are Ready To Go!" ;;
  (if match connectedAccounts with
      | None => true
      | Some l => (List.length l =? 0)%nat
      end then
     log_warning "" ;;
     log_warning "" ;;
     log_warning tilde_line ;;
     log_warning tilde_line ;;
     log_warning "          This Plugin Isn't Connected To OctoEverywhere!          " ;;
     log_warning " Use the following link to finish the setup and get remote access:" ;;
     printerId <- GetPrinterId ;;
     url <- add_printer_url printerId ;;
     log_warning (" " ++ url) ;;
     log_warning tilde_line ;;
     log_warning tilde_line ;;
     log_warning "" ;;
     log_warning ""
   else ret tt).

End BambuHost.

(** The bootstrap routine and the run entry point of each host variant. *)
Definition DoFirstTimeSetupIfNeeded (h : Host) (env : Env) : M unit :=
  match h with
  | Moonraker => MoonrakerHost.DoFirstTimeSetupIfNeeded env
  | Bambu => BambuHost.DoFirstTimeSetupIfNeeded env
  end.

Definition RunBlocking (h : Host) (env : Env) (devConfig : option (list (string * option string))) : M unit :=
  match h with
  | Moonraker => MoonrakerHost.RunBlocking env
  | Bambu => BambuHost.RunBlocking env devConfig
  end.

Definition OnPrimaryConnectionEstablished (h : Host) (env : Env) (octoKey : string)
    (connectedAccounts : option (list string)) : M unit :=
  match h with
  | Moonraker => MoonrakerHost.OnPrimaryConnectionEstablished env octoKey connectedAccounts
  | Bambu => BambuHost.OnPrimaryConnectionEstablished env octoKey connectedAccounts
  end.

(** ** The fleet updater ([moonraker_installer/Updater.py]) *)

(** Python's [sorted] on strings: code-point lexicographic order. *)
Module StrLe <: TotalLeBool.
Definition t := string.
Definition leb := String.leb.
Lemma leb_total : forall x y, leb x y = true \/ leb y x = true.
Proof. exact String.leb_total. Qed.
End StrLe.

Module StrSort := Sort StrLe.

Definition sorted (l : list string) : list string := StrSort.sort l.

(** [str.lower()] on the ASCII range. *)
Definition ascii_lower (c : ascii) : ascii :=
  let n := nat_of_ascii c in
  if (65 <=? n)%nat && (n <=? 90)%nat then ascii_of_nat (n + 32) else c.

Definition lower (s : string) : string :=
  string_of_list_ascii (map ascii_lower (list_ascii_of_string s)).

(** [str.startswith(p)] *)
Definition startswith (s p : string) : bool := String.prefix p s.

Fixpoint for_each {A} (l : list A) (f : A -> M unit) : M unit :=
  match l with
  | [] => ret tt
  | x :: l' => f x ;; for_each l' f
  end.

Definition Logger_Header := log LHeader.
Definition Logger_Debug := log LDebug.
Definition Logger_Info := log LInfo.
Definition Logger_Warn := log LWarning.
Definition Logger_Purple := log LPurple.
Definition Logger_Blank : M unit := log LBlank "".

(** [Util.RunShellCommand(cmd)].  Modelled from the spec (sections 4.4 and 6):
    the command runs and its exit code and combined output are returned. *)
Definition RunShellCommand (env : Env) (cmd : string) : M (Z * string) :=
  emit (EvCall (CRunShellCommand cmd)) ;; ret (env_shell env cmd).

(** [os.listdir(Util.SystemdServiceFilePath)] *)
Definition listdir (env : Env) : M (list string) :=
  ext env CListDir ;; ret (env_listdir env).

(** Modelled from the spec: [Configure.c_ServiceCommonNamePrefix], the
    product family's common prefix. *)
Definition Configure_c_ServiceCommonNamePrefix : string := "octoeverywhere".

Definition no_services_msg : string := "No local plugins or companions were found.".

Module Updater.

Section DoUpdate.

(** The prefix constant is read from [Configure]; the update is defined for
    any value of it. *)
Variable c_ServiceCommonNamePrefix : string.

Definition matches (fileOrDirName : string) : bool :=
  startswith (lower fileOrDirName) c_ServiceCommonNamePrefix.

(** The collecting loop over the sorted directory listing. *)
Fixpoint collect (l : list string) (foundOeServices : list string) : M (list string) :=
  match l with
  | [] => ret foundOeServices
  | fileOrDirName :: l' =>
      Logger_Debug (" Searching for OE services to update, found: " ++ fileOrDirName) ;;
      collect l' (if matches fileOrDirName then foundOeServices ++ [fileOrDirName]
                  else foundOeServices)
  end.

Definition restart_one (env : Env) (s : string) : M unit :=
  rc_out <- RunShellCommand env ("systemctl restart " ++ s) ;;
  if negb (fst rc_out =? 0)%Z then
    Logger_Warn ("Service " ++ s ++ " might have failed to restart. Output: " ++ snd rc_out)
  else ret tt.

(** The end of [Updater.DoUpdate] (source lines 50-63): the version lookup,
    whose failure degrades to ["Unknown"], and the success banner. *)
Definition ReportUpdateDone (env : Env) : M unit :=
  pluginVersionStr <-
    try_except (ext env CVersionGetPluginVersion ;; ret (env_plugin_version env))
      (fun e => Logger_Warn ("Failed to parse setup.py for plugin version. " ++ exn_msg e) ;;
                ret "Unknown") ;;
  Logger_Blank ;;
  Logger_Header "-------------------------------------------" ;;
  Logger_Info "    OctoEverywhere Update Successful" ;;
  Logger_Info ("       New Version: " ++ pluginVersionStr) ;;
  Logger_Purple "            Happy Printing!" ;;
  Logger_Header "-------------------------------------------" ;;
  Logger_Blank.

(** [Updater.DoUpdate] *)
Definition DoUpdate (env : Env) : M unit :=
  Logger_Header "Starting Update Logic" ;;
  l <- listdir env ;;
  foundOeServices <- collect (sorted l) [] ;;
  (if (List.length foundOeServices =? 0)%nat then
     Logger_Warn no_services_msg ;;
     raise (mkExn PyException no_services_msg)
   else ret tt) ;;
  Logger_Info "We found the following plugins to update:" ;;
  for_each foundOeServices (fun s => Logger_Info ("  " ++ s)) ;;
  Logger_Info "Restarting services..." ;;
  for_each foundOeServices (restart_one env) ;;
  ReportUpdateDone env.

End DoUpdate.

End Updater.

(** ** [Updater.PlaceUpdateScriptInRoot]

    The file system as the function uses it: files by path, each with its
    content and its [st_mode]; which operation raises is up to the
    environment, as is the mode [open(path, 'w')] gives a new file. *)

Inductive FsOp := OpOpen | OpWrite | OpStat | OpChmod.

Record FsEnv := mkFsEnv {
  fs_raises : FsOp -> string -> option Exn;  (** the exception an operation on a path raises *)
  fs_new_mode : Z                            (** [st_mode] of a file [open] creates *)
}.

(** Each path names its own file: the model has no symbolic or hard links,
    so it says nothing about which other files [open] and [os.chmod] reach
    when a path is a link. *)
Record FsWorld := mkFsWorld {
  fs_files : list (string * (string * Z));   (** path -> (content, st_mode) *)
  fs_log : list Event
}.

Definition FsM (A : Type) : Type := FsWorld -> Result A * FsWorld.

Definition fret {A} (a : A) : FsM A := fun fw => (Ok a, fw).

Definition fbind {A B} (m : FsM A) (k : A -> FsM B) : FsM B :=
  fun fw => match m fw with
            | (Ok a, fw') => k a fw'
            | (Raise e, fw') => (Raise e, fw')
            end.

Definition ftry_except {A} (body : FsM A) (handler : Exn -> FsM A) : FsM A :=
  fun fw => match body fw with
            | (Raise e, fw') => if is_Exception e then handler e fw' else (Raise e, fw')
            | r => r
            end.

Fixpoint fs_lookup (files : list (string * (string * Z))) (p : string) : option (string * Z) :=
  match files with
  | [] => None
  | (q, f) :: files' => if String.eqb p q then Some f else fs_lookup files' p
  end.

Fixpoint fs_set (files : list (string * (string * Z))) (p : string) (f : string * Z)
    : list (string * (string * Z)) :=
  match files with
  | [] => [(p, f)]
  | (q, g) :: files' => if String.eqb p q then (q, f) :: files' else (q, g) :: fs_set files' p f
  end.

Definition put_file (p : string) (f : string * Z) : FsM unit :=
  fun fw => (Ok tt, {| fs_files := fs_set (fs_files fw) p f; fs_log := fs_log fw |}).

Definition file_not_found : Exn := mkExn PyException "FileNotFoundError".

(** [open(path, 'w')]: truncates the file, or creates it. *)
Definition fs_open_w (fenv : FsEnv) (p : string) : FsM unit :=
  fun fw =>
    match fs_raises fenv OpOpen p with
    | Some e => (Raise e, fw)
    | None =>
        put_file p ("", match fs_lookup (fs_files fw) p with
                        | Some (_, mode) => mode
                        | None => fs_new_mode fenv
                        end) fw
    end.

(** [f.write(s)] and the close at the end of the [with]: a failed write
    leaves the truncated file. *)
Definition fs_write (fenv : FsEnv) (p s : string) : FsM unit :=
  fun fw =>
    match fs_raises fenv OpWrite p with
    | Some e => (Raise e, fw)
    | None =>
        put_file p (s, match fs_lookup (fs_files fw) p with
                       | Some (_, mode) => mode
                       | None => fs_new_mode fenv
                       end) fw
    end.

(** [os.stat(path).st_mode] *)
Definition fs_stat (fenv : FsEnv) (p : string) : FsM Z :=
  fun fw =>
    match fs_raises fenv OpStat p with
    | Some e => (Raise e, fw)
    | None =>
        match fs_lookup (fs_files fw) p with
        | Some (_, mode) => (Ok mode, fw)
        | None => (Raise file_not_found, fw)
        end
    end.

(** [os.chmod(path, mode)] *)
Definition fs_chmod (fenv : FsEnv) (p : string) (mode : Z) : FsM unit :=
  fun fw =>
    match fs_raises fenv OpChmod p with
    | Some e => (Raise e, fw)
    | None =>
        match fs_lookup (fs_files fw) p with
        | Some (content, _) => put_file p (content, mode) fw
        | None => (Raise file_not_found, fw)
        end
    end.

Definition Logger_Error_fs (msg : string) : FsM unit :=
  fun fw => (Ok tt, {| fs_files := fs_files fw; fs_log := fs_log fw ++ [EvLog LError msg] |}).

(** [stat.S_IEXEC], the owner's execute bit (0o100). *)
Definition S_IEXEC : Z := 64.

(** [os.path.join(a, b)] for a relative [b]. *)
Definition path_join (a b : string) : string :=
  if String.eqb a "" then b
  else if String.eqb (substring (String.length a - 1) 1 a) "/" then a ++ b
  else a ++ "/" ++ b.

Definition nl : string := String (Ascii.ascii_of_nat 10) EmptyString.

(** The f-string of the update script, with [{context.RepoRootFolder}]. *)
Definition update_script (RepoRootFolder : string) : string :=
  "#!/bin/bash" ++ nl ++
  nl ++
  "#" ++ nl ++
  "# This script will update all of the OctoEverywhere for Klipper instances on this device!" ++ nl ++
  "#" ++ nl ++
  "# This works for both the normal plugin install (where Klipper is running on this device) and Companion plugins." ++ nl ++
  "#" ++ nl ++
  "# If you need help, feel free to contact us at support@octoeverywhere.com" ++ nl ++
  "#" ++ nl ++
  nl ++
  "# The update and install scripts need to be ran from the repo root." ++ nl ++
  "# So just cd and execute our update script! Easy peasy!" ++ nl ++
  "startingDir=$(pwd)" ++ nl ++
  "cd " ++ RepoRootFolder ++ nl ++
  "./update.sh" ++ nl ++
  "cd $startingDir" ++ nl ++
  "            ".

(** The two fields of the installer's [Context] the function reads. *)
Record UpdaterContext := mkUpdaterContext {
  ctx_RepoRootFolder : string;
  ctx_UserHomePath : string
}.

Definition update_file_name : string := "update-octoeverywhere.sh".

(** [Updater.PlaceUpdateScriptInRoot] *)
Definition PlaceUpdateScriptInRoot (fenv : FsEnv) (context : UpdaterContext) : FsM bool :=
  ftry_except
    (let s := update_script (ctx_RepoRootFolder context) in
     let updateFilePath := path_join (ctx_UserHomePath context) update_file_name in
     fbind (fs_open_w fenv updateFilePath) (fun _ =>
     fbind (fs_write fenv updateFilePath s) (fun _ =>
     fbind (fs_stat fenv updateFilePath) (fun st_mode =>
     fbind (fs_chmod fenv updateFilePath (Z.lor st_mode S_IEXEC)) (fun _ =>
     fret true)))))
    (fun e => fbind (Logger_Error_fs ("Failed to write updater script to user home. " ++ exn_msg e))
                    (fun _ => fret false)).

(** The first of the four operations on [p] that raises, in program order. *)
Definition place_failure (fenv : FsEnv) (p : string) : option Exn :=
  match fs_raises fenv OpOpen p with
  | Some e => Some e
  | None =>
      match fs_raises fenv OpWrite p with
      | Some e => Some e
      | None =>
          match fs_raises fenv OpStat p with
          | Some e => Some e
          | None => fs_raises fenv OpChmod p
          end
      end
  end.

(** ** Observations on traces *)

Definition boot_state (printerId privateKey : option string) : World :=
  {| w_printer_id := printerId; w_private_key := privateKey; w_trace := [] |}.

Definition printer_id_writes (h : Host) (tr : list Event) : list string :=
  flat_map (fun ev =>
    match h, ev with
    | Moonraker, EvCall (CConfigSetStr sec k v) =>
        if String.eqb sec ServerSection && String.eqb k PrinterIdKey then [v] else []
    | Bambu, EvCall (CSecretsSetPrinterId v) => [v]
    | _, _ => []
    end) tr.

Definition private_key_writes (h : Host) (tr : list Event) : list string :=
  flat_map (fun ev =>
    match h, ev with
    | Moonraker, EvCall (CConfigSetStr sec k v) =>
        if String.eqb sec ServerSection && String.eqb k PrivateKeyKey then [v] else []
    | Bambu, EvCall (CSecretsSetPrivateKey v) => [v]
    | _, _ => []
    end) tr.

Definition is_absent_exn (o : option Exn) : bool :=
  match o with None => true | Some _ => false end.

Definition is_store_write (c : Call) : bool :=
  match c with
  | CConfigSetStr _ _ _ | CSecretsSetPrinterId _ | CSecretsSetPrivateKey _ => true
  | _ => false
  end.

Definition is_absent (o : option string) : bool :=
  match o with None => true | Some _ => false end.

(** Every identity-store write recorded in the trace succeeded. *)
Definition store_writes_ok (env : Env) (tr : list Event) : bool :=
  forallb (fun ev => match ev with
                     | EvCall c => negb (is_store_write c) || is_absent_exn (env_raises env c)
                     | _ => true
                     end) tr.

Definition is_log (ev : Event) : bool :=
  match ev with EvLog _ _ => true | _ => false end.

Definition warnings (tr : list Event) : list string :=
  flat_map (fun ev => match ev with EvLog LWarning m => [m] | _ => [] end) tr.

Definition restart_cmds (tr : list Event) : list string :=
  flat_map (fun ev => match ev with EvCall (CRunShellCommand c) => [c] | _ => [] end) tr.

Definition hook_calls (tr : list Event) : nat :=
  List.length (filter (fun ev => match ev with EvCall CEnsureAllowedServicesFile => true
                                             | _ => false end) tr).

(** Calls that initialise a supporting subsystem (telemetry, mDNS, HTTP
    proxy settings, ping-pong, snapshot and webcam helpers, command handler,
    printer clients). *)
Definition is_subsystem_init (c : Call) : bool :=
  match c with
  | CTelemetryInit | CTelemetrySetServerProtocolAndDomain _ | CMDnsInit
  | COctoHttpRequestSetLocalHttpProxyPort _ | COctoHttpRequestSetLocalHttpProxyIsHttps _
  | COctoHttpRequestSetLocalOctoPrintPort _
  | COctoPingPongInit _ | COctoPingPongDisablePrimaryOverride | CSnapshotHelperInit
  | CMoonrakerClientInit _ | CBambuWebcamHelperCreate | CWebcamHelperInit
  | CBambuCommandHandlerCreate | CCommandHandlerInit
  | CBambuClientCreate | CBambuClientDoesNothing => true
  | _ => false
  end.

(** ** Observations on update runs *)

Definition with_trace (w : World) (tr : list Event) : World :=
  {| w_printer_id := w_printer_id w; w_private_key := w_private_key w;
     w_trace := app (w_trace w) tr |}.

Definition restart_cmd (s : string) : string := "systemctl restart " ++ s.

Definition restart_failed (env : Env) (s : string) : bool :=
  negb (fst (env_shell env (restart_cmd s)) =? 0)%Z.

Definition restart_warning (env : Env) (s : string) : string :=
  "Service " ++ s ++ " might have failed to restart. Output: " ++ snd (env_shell env (restart_cmd s)).

(** The events of one iteration of the restart loop. *)
Definition restart_events (env : Env) (s : string) : list Event :=
  EvCall (CRunShellCommand (restart_cmd s)) ::
  (if restart_failed env s then [EvLog LWarning (restart_warning env s)] else []).

(** The warnings that report a failed restart. *)
Definition restart_warnings (tr : list Event) : list string :=
  filter (String.prefix "Service ") (warnings tr).

(** The spec's membership test: the name starts with the prefix, ignoring
    case. *)
Definition ci_startswith (name p : string) : bool := startswith (lower name) (lower p).

(** The entries the update run selects, as the code computes them. *)
Definition selected_services (p : string) (listing : list string) : list string :=
  filter (Updater.matches p) (sorted listing).

Definition update_banner_events (v : string) : list Event :=
  [EvLog LBlank ""; EvLog LHeader "-------------------------------------------";
   EvLog LInfo "    OctoEverywhere Update Successful";
   EvLog LInfo ("       New Version: " ++ v);
   EvLog LPurple "            Happy Printing!";
   EvLog LHeader "-------------------------------------------"; EvLog LBlank ""].

Definition search_event (n : string) : Event :=
  EvLog LDebug (" Searching for OE services to update, found: " ++ n).

(** ** Run invariants

    [aborts_at_raise env m]: [m] only appends to the trace, and either every
    call it issued returned, or it raised the exception of its last call,
    every earlier call having returned.  [no_relay_run m]: [m] never calls
    the relay's blocking run loop. *)

Definition clean (env : Env) (tr : list Event) : Prop :=
  forall c, In (EvCall c) tr -> env_raises env c = None.

Definition aborts_at_raise {A} (env : Env) (m : M A) : Prop :=
  forall w, exists new,
    w_trace (snd (m w)) = app (w_trace w) new /\
    match fst (m w) with
    | Ok _ => clean env new
    | Raise e => exists pre c, new = app pre [EvCall c] /\ clean env pre /\
                               env_raises env c = Some e
    end.

Definition no_relay_run {A} (m : M A) : Prop :=
  forall w, exists new,
    w_trace (snd (m w)) = app (w_trace w) new /\
    ~ In (EvCall COctoEverywhereRunBlocking) new.

Definition RunBlockingSetup (h : Host) (env : Env) (devConfig : option (list (string * option string))) : M unit :=
  match h with
  | Moonraker => MoonrakerHost.RunBlockingSetup env
  | Bambu => BambuHost.RunBlockingSetup env devConfig
  end.

Definition RunBlockingBody (h : Host) (env : Env) (devConfig : option (list (string * option string))) : M unit :=
  match h with
  | Moonraker => MoonrakerHost.RunBlockingBody env
  | Bambu => BambuHost.RunBlockingBody env devConfig
  end.

(** ** Concrete environments *)

Definition keyboard_interrupt : Exn := mkExn PyBaseOnly "KeyboardInterrupt".
Definition io_error : Exn := mkExn PyException "OSError: [Errno 28] No space left on device".

Definition mk_env (raises : Call -> option Exn) (listing : list string)
    (shell : string -> Z * string) : Env :=
  {| env_raises := raises; env_plugin_version := "2.9.0"; env_frontend_port := 80%Z;
     env_rand_pid := fun i => i; env_rand_key := fun i => 7 * i;
     env_listdir := listing; env_shell := shell |}.

Definition spec_listing : list string :=
  ["octoeverywhere-bambu.service"; "other-app.service"; "OctoEverywhere-companion.service"].

(** Nothing raises, every restart succeeds. *)
Definition env_ok : Env := mk_env (fun _ => None) spec_listing (fun _ => (0%Z, "")).

(** Every identity-store write raises. *)
Definition env_store_write_fails : Env :=
  mk_env (fun c => if is_store_write c then Some io_error else None)
         spec_listing (fun _ => (0%Z, "")).

(** [Telemetry.Init] raises. *)
Definition env_telemetry_fails : Env :=
  mk_env (fun c => match c with CTelemetryInit => Some io_error | _ => None end)
         spec_listing (fun _ => (0%Z, "")).

(** The relay's blocking run loop is interrupted by Ctrl-C. *)
Definition env_relay_interrupted : Env :=
  mk_env (fun c => match c with COctoEverywhereRunBlocking => Some keyboard_interrupt
                              | _ => None end)
         spec_listing (fun _ => (0%Z, "")).

(** The restart of [octoeverywhere-bambu.service] exits with code 1. *)
Definition env_one_restart_fails : Env :=
  mk_env (fun _ => None) spec_listing
         (fun cmd => if String.eqb cmd "systemctl restart octoeverywhere-bambu.service"
                     then (1%Z, "Job failed") else (0%Z, "")).

(** ** Trace predicates of the startup and update runs *)

Definition emits_only {A} (ok : Event -> Prop) (m : M A) : Prop :=
  forall w, exists new, w_trace (snd (m w)) = app (w_trace w) new /\ Forall ok new.

Definition ok_has {A} (P : Event -> Prop) (m : M A) : Prop :=
  forall w a, fst (m w) = Ok a ->
    exists new ev, w_trace (snd (m w)) = app (w_trace w) new /\ P ev /\ In ev new.

Definition identity_ok (ev : Event) : Prop :=
  match ev with
  | EvCall (COctoEverywhereCreate _ p k _) => IsPrinterIdValid p = true /\ IsPrivateKeyValid k = true
  | EvCall (COctoPingPongInit p) => IsPrinterIdValid p = true
  | EvCall (CMoonrakerClientInit p) => IsPrinterIdValid p = true
  | _ => True
  end.

Definition is_create (ev : Event) : Prop :=
  match ev with EvCall (COctoEverywhereCreate _ _ _ _) => True | _ => False end.

(** Every entry into the relay's run loop recorded in [new] is preceded, in
    [new], by the creation of a relay client. *)
Definition run_guarded (new : list Event) : Prop :=
  forall a b, new = app a (EvCall COctoEverywhereRunBlocking :: b) -> exists ev, is_create ev /\ In ev a.

Definition relay_guarded {A} (m : M A) : Prop :=
  forall w, exists new, w_trace (snd (m w)) = app (w_trace w) new /\ run_guarded new.

Definition bambu_dev_ok (env : Env) (dev : option string) (ev : Event) : Prop :=
  match ev with
  | EvCall (COctoEverywhereCreate uri _ _ v) =>
      uri = match dev with
            | Some d => "ws://" ++ d ++ "/octoclientws"
            | None => c_OctoEverywhereOctoClientWsUri
            end /\ v = env_plugin_version env
  | EvCall (CTelemetrySetServerProtocolAndDomain x) => exists d, dev = Some d /\ x = "http://" ++ d
  | EvCall COctoPingPongDisablePrimaryOverride => dev <> None
  | _ => True
  end.

Definition moonraker_cfg_ok (env : Env) (ev : Event) : Prop :=
  match ev with
  | EvCall (COctoEverywhereCreate uri _ _ v) =>
      uri = c_OctoEverywhereOctoClientWsUri /\ v = env_plugin_version env
  | EvCall (COctoHttpRequestSetLocalHttpProxyPort p) => p = env_frontend_port env
  | EvCall (COctoHttpRequestSetLocalHttpProxyIsHttps b) => b = false
  | EvCall (COctoHttpRequestSetLocalOctoPrintPort p) => p = env_frontend_port env
  | EvCall (CTelemetrySetServerProtocolAndDomain _) => False
  | EvCall COctoPingPongDisablePrimaryOverride => False
  | _ => True
  end.

(** Further concrete environments. *)

Definition env_version_fails : Env :=
  mk_env (fun c => match c with CVersionGetPluginVersion => Some io_error | _ => None end)
         spec_listing (fun _ => (0%Z, "")).

Definition env_listdir_fails : Env :=
  mk_env (fun c => match c with CListDir => Some io_error | _ => None end)
         spec_listing (fun _ => (0%Z, "")).

Definition home_fenv : FsEnv := mkFsEnv (fun _ _ => None) 420%Z.

Definition home_context : UpdaterContext := mkUpdaterContext "/home/pi/octoeverywhere" "/home/pi".

Definition home_fs : FsWorld :=
  mkFsWorld [("/home/pi/.bashrc", ("alias ll=ls", 420%Z))] [].

(** ** The exit log flush

    [FlushLogs] logs the exit banner and calls [logging.shutdown]; an
    [Exception] of the shutdown is printed, any other exception propagates. *)
Definition flush_events : list Event :=
  [EvLog LInfo "##################################";
   EvLog LInfo "#### OctoEverywhere Exiting ######";
   EvLog LInfo "##################################";
   EvCall CLoggingShutdown].

Definition flush_print (e : Exn) : Event := EvPrint ("Exception in logging.shutdown " ++ exn_msg e).

Definition flush_tail (env : Env) : list Event :=
  match env_raises env CLoggingShutdown with
  | Some e => if is_Exception e then flush_events ++ [flush_print e] else flush_events
  | None => flush_events
  end.

Definition flush_result (env : Env) : Result unit :=
  match env_raises env CLoggingShutdown with
  | Some e => if is_Exception e then Ok tt else Raise e
  | None => Ok tt
  end.

(** * Proofs *)

(** ** The generators pass the validators *)

Lemma length_string_of_list_ascii (l : list ascii) :
  String.length (string_of_list_ascii l) = List.length l.
Proof. induction l as [|c l IH]; simpl; congruence. Qed.

Lemma pick_char_in_alphabet (k : nat) : in_alphabet (pick_char k) = true.
Proof.
  unfold in_alphabet, pick_char. apply existsb_exists.
  exists (nth (k mod List.length token_alphabet) token_alphabet "A"%char).
  split.
  - apply nth_In, Nat.mod_upper_bound. discriminate.
  - apply Ascii.eqb_refl.
Qed.

Lemma random_token_length (r : nat -> nat) (n : nat) :
  String.length (random_token r n) = n.
Proof.
  unfold random_token. rewrite length_string_of_list_ascii, length_map. apply length_seq.
Qed.

Lemma GeneratePrinterId_valid (r : nat -> nat) :
  IsPrinterIdValid (Some (GeneratePrinterId r)) = true.
Proof.
  unfold IsPrinterIdValid, GeneratePrinterId.
  rewrite random_token_length, Nat.eqb_refl, andb_true_l.
  unfold random_token. rewrite list_ascii_of_string_of_list_ascii.
  apply forallb_forall. intros c Hc. apply in_map_iff in Hc.
  destruct Hc as [i [<- _]]. apply pick_char_in_alphabet.
Qed.

Lemma GeneratePrivateKey_valid (r : nat -> nat) :
  IsPrivateKeyValid (Some (GeneratePrivateKey r)) = true.
Proof.
  unfold IsPrivateKeyValid, GeneratePrivateKey.
  rewrite random_token_length. apply Nat.leb_refl.
Qed.

(** ** Case analysis on a bootstrap run *)

Lemma IsPrinterIdValid_None : IsPrinterIdValid None = false.
Proof. reflexivity. Qed.

Lemma IsPrivateKeyValid_None : IsPrivateKeyValid None = false.
Proof. reflexivity. Qed.

Ltac run_simpl :=
  cbv -[GeneratePrinterId GeneratePrivateKey IsPrinterIdValid IsPrivateKeyValid] in *.

Ltac boot_split :=
  repeat (run_simpl;
    first
    [ rewrite GeneratePrinterId_valid
    | rewrite GeneratePrivateKey_valid
    | match goal with
    | |- context [IsPrinterIdValid ?p] =>
        let H := fresh "Hpid" in destruct (IsPrinterIdValid p) eqn:H
    | |- context [IsPrivateKeyValid ?p] =>
        let H := fresh "Hkey" in destruct (IsPrivateKeyValid p) eqn:H
    | |- context [env_raises ?env ?c] =>
        let H := fresh "Hraise" in destruct (env_raises env c) eqn:H
    | |- context [match ?p with None => _ | Some _ => _ end] =>
        first [ is_var p; destruct p
              | let H := fresh "Hopt" in destruct p eqn:H ]
    end ]);
  rewrite ?IsPrinterIdValid_None, ?IsPrivateKeyValid_None in *;
  try discriminate.

(** C1 *)
(** Claim C1: when the stored printer id is absent or fails [IsPrinterIdValid],
    the bootstrap of either host writes exactly one printer id, the freshly
    generated one, and issues that write before anything but log lines;
    once that write has succeeded the store holds the generated id, which is
    valid (a failing write is raised and leaves the store as it was).  When
    the stored id is valid, no printer-id write is issued and the id is kept. *)
Theorem C1_bootstrap_regenerates_invalid_printer_id :
  forall (h : Host) (env : Env) (printerId privateKey : option string),
    let v := GeneratePrinterId (env_rand_pid env) in
    let '(r, w') := DoFirstTimeSetupIfNeeded h env (boot_state printerId privateKey) in
    if IsPrinterIdValid printerId then
      printer_id_writes h (w_trace w') = [] /\ w_printer_id w' = printerId
    else
      printer_id_writes h (w_trace w') = [v] /\
      (exists pre post : list Event,
          w_trace w' = (pre ++ EvCall (printer_id_write h v) :: post)%list /\
          forallb is_log pre = true) /\
      match env_raises env (printer_id_write h v) with
      | None => w_printer_id w' = Some v /\ IsPrinterIdValid (w_printer_id w') = true
      | Some e => r = Raise e /\ w_printer_id w' = printerId
      end.
Proof.
  intros h [raises ver port rpid rkey ls sh] printerId privateKey v.
  destruct h; unfold DoFirstTimeSetupIfNeeded, MoonrakerHost.DoFirstTimeSetupIfNeeded,
    BambuHost.DoFirstTimeSetupIfNeeded; boot_split;
    repeat split; auto; try rewrite GeneratePrinterId_valid; auto;
    try discriminate;
    try (eexists [_], _; split; [reflexivity | reflexivity]).

Qed.

(** C2 *)
(** Claim C2, as the code has it: the Moonraker bootstrap calls the
    first-run hook [EnsureAllowedServicesFile] once exactly when the printer
    id was absent ([None]) and every identity write it issued succeeded; a
    present but invalid id never triggers it.  The Bambu bootstrap never
    calls it.  Neither returns the flag. *)
Theorem C2_first_run_hook_iff_absent_moonraker_only :
  forall (env : Env) (printerId privateKey : option string),
    (let '(_, w') := MoonrakerHost.DoFirstTimeSetupIfNeeded env (boot_state printerId privateKey) in
     hook_calls (w_trace w') =
       (if is_absent printerId && store_writes_ok env (w_trace w') then 1 else 0)%nat) /\
    hook_calls (w_trace (snd (BambuHost.DoFirstTimeSetupIfNeeded env
                                (boot_state printerId privateKey)))) = 0%nat.
Proof.
  intros [raises ver port rpid rkey ls sh] printerId privateKey.
  unfold MoonrakerHost.DoFirstTimeSetupIfNeeded, BambuHost.DoFirstTimeSetupIfNeeded;
    boot_split; auto.
Qed.

(** C3 *)
(** Claim C3: regeneration of the printer id and of the private key are
    independent, for both hosts.  A valid id with an invalid or absent key:
    no printer-id write, the stored id kept, exactly one key write (the
    generated key).  An invalid or absent id with a valid key: no key write,
    the stored key kept, exactly one printer-id write (the generated id). *)
Theorem C3_identity_regeneration_independent :
  forall (h : Host) (env : Env) (printerId privateKey : option string),
    let '(r, w') := DoFirstTimeSetupIfNeeded h env (boot_state printerId privateKey) in
    (IsPrinterIdValid printerId = true -> IsPrivateKeyValid privateKey = false ->
       printer_id_writes h (w_trace w') = [] /\ w_printer_id w' = printerId /\
       private_key_writes h (w_trace w') = [GeneratePrivateKey (env_rand_key env)]) /\
    (IsPrinterIdValid printerId = false -> IsPrivateKeyValid privateKey = true ->
       private_key_writes h (w_trace w') = [] /\ w_private_key w' = privateKey /\
       printer_id_writes h (w_trace w') = [GeneratePrinterId (env_rand_pid env)]).
Proof.
  intros h [raises ver port rpid rkey ls sh] printerId privateKey.
  destruct h; unfold DoFirstTimeSetupIfNeeded, MoonrakerHost.DoFirstTimeSetupIfNeeded,
    BambuHost.DoFirstTimeSetupIfNeeded; boot_split;
    split; intros; try discriminate; repeat split; auto.
Qed.

(** ** Run invariants, compositionally *)

Section Invariants.

Variable env : Env.

Lemma aborts_ret {A} (a : A) : aborts_at_raise env (ret a).
Proof. intro w. exists []. rewrite app_nil_r. split; [reflexivity | intros c []]. Qed.

Lemma aborts_emit_log (ev : Event) :
  (forall c, ev <> EvCall c) -> aborts_at_raise env (emit ev).
Proof.
  intros Hev w. exists [ev]. split; [reflexivity|].
  intros c [Hc|[]]. exfalso. exact (Hev c Hc).
Qed.

Lemma aborts_ext (c : Call) : aborts_at_raise env (ext env c).
Proof.
  intro w. exists [EvCall c]. unfold ext, bind, emit.
  destruct (env_raises env c) as [e|] eqn:Hc; cbn; split; try reflexivity.
  - exists [], c. split; [reflexivity|]. split; [intros ? []|exact Hc].
  - intros c' [Hc'|[]]. injection Hc' as <-. exact Hc.
Qed.

Lemma aborts_GetPrinterId : aborts_at_raise env GetPrinterId.
Proof. intro w. exists []. rewrite app_nil_r. split; [reflexivity | intros c []]. Qed.

Lemma aborts_GetPrivateKey : aborts_at_raise env GetPrivateKey.
Proof. intro w. exists []. rewrite app_nil_r. split; [reflexivity | intros c []]. Qed.

Lemma aborts_put_printer_id v : aborts_at_raise env (put_printer_id v).
Proof. intro w. exists []. rewrite app_nil_r. split; [reflexivity | intros c []]. Qed.

Lemma aborts_put_private_key v : aborts_at_raise env (put_private_key v).
Proof. intro w. exists []. rewrite app_nil_r. split; [reflexivity | intros c []]. Qed.

Lemma clean_app (tr1 tr2 : list Event) :
  clean env tr1 -> clean env tr2 -> clean env (app tr1 tr2).
Proof. intros H1 H2 c Hc. apply in_app_or in Hc as [Hc|Hc]; auto. Qed.

Lemma aborts_bind {A B} (m : M A) (k : A -> M B) :
  aborts_at_raise env m -> (forall a, aborts_at_raise env (k a)) ->
  aborts_at_raise env (bind m k).
Proof.
  intros Hm Hk w. unfold bind.
  destruct (Hm w) as [new1 [Ht1 H1]].
  destruct (m w) as [[a|e] w1]; cbn in *.
  - destruct (Hk a w1) as [new2 [Ht2 H2]].
    exists (app new1 new2). split.
    + rewrite Ht2, Ht1. symmetry. apply app_assoc.
    + destruct (fst (k a w1)) as [b|e].
      * apply clean_app; assumption.
      * destruct H2 as [pre [c [-> [Hpre Hc]]]].
        exists (app new1 pre), c. split; [apply app_assoc|].
        split; [apply clean_app|]; assumption.
  - exists new1. split; assumption.
Qed.

Lemma no_relay_ret {A} (a : A) : no_relay_run (ret a).
Proof. intro w. exists []. rewrite app_nil_r. split; [reflexivity | intros []]. Qed.

Lemma no_relay_emit (ev : Event) :
  ev <> EvCall COctoEverywhereRunBlocking -> no_relay_run (emit ev).
Proof. intros Hev w. exists [ev]. split; [reflexivity|]. intros [H|[]]. auto. Qed.

Lemma no_relay_ext (c : Call) :
  c <> COctoEverywhereRunBlocking -> no_relay_run (ext env c).
Proof.
  intros Hc w. exists [EvCall c]. unfold ext, bind, emit.
  destruct (env_raises env c); cbn; (split; [reflexivity|]);
    intros [H|[]]; injection H; auto.
Qed.

Lemma no_relay_state {A} (m : M A) :
  (forall w, w_trace (snd (m w)) = w_trace w) -> no_relay_run m.
Proof.
  intros Hm w. exists []. rewrite app_nil_r. split; [apply Hm | intros []].
Qed.

Lemma no_relay_bind {A B} (m : M A) (k : A -> M B) :
  no_relay_run m -> (forall a, no_relay_run (k a)) -> no_relay_run (bind m k).
Proof.
  intros Hm Hk w. unfold bind.
  destruct (Hm w) as [new1 [Ht1 H1]].
  destruct (m w) as [[a|e] w1]; cbn in *.
  - destruct (Hk a w1) as [new2 [Ht2 H2]].
    exists (app new1 new2). split.
    + rewrite Ht2, Ht1. symmetry. apply app_assoc.
    + intro H. apply in_app_or in H as [H|H]; contradiction.
  - exists new1. split; assumption.
Qed.

End Invariants.

Ltac inv_solve :=
  repeat
    match goal with
    | |- aborts_at_raise _ (bind _ _) => apply aborts_bind; intros
    | |- aborts_at_raise ?env (ext ?env _) => apply aborts_ext
    | |- aborts_at_raise _ (emit _) => apply aborts_emit_log; intros ? ?; discriminate
    | |- aborts_at_raise _ (ret _) => apply aborts_ret
    | |- aborts_at_raise _ GetPrinterId => apply aborts_GetPrinterId
    | |- aborts_at_raise _ GetPrivateKey => apply aborts_GetPrivateKey
    | |- aborts_at_raise _ (put_printer_id _) => apply aborts_put_printer_id
    | |- aborts_at_raise _ (put_private_key _) => apply aborts_put_private_key
    | |- no_relay_run (bind _ _) => apply no_relay_bind; intros
    | |- no_relay_run (ext _ _) => apply no_relay_ext; discriminate
    | |- no_relay_run (emit _) => apply no_relay_emit; discriminate
    | |- no_relay_run (ret _) => apply no_relay_ret
    | |- no_relay_run GetPrinterId => apply no_relay_state; reflexivity
    | |- no_relay_run GetPrivateKey => apply no_relay_state; reflexivity
    | |- no_relay_run (put_printer_id _) => apply no_relay_state; reflexivity
    | |- no_relay_run (put_private_key _) => apply no_relay_state; reflexivity
    | |- _ (if ?b then _ else _) => destruct b
    | |- _ _ (if ?b then _ else _) => destruct b
    | |- _ (match ?x with None => _ | Some _ => _ end) => destruct x
    | |- _ _ (match ?x with None => _ | Some _ => _ end) => destruct x
    end.

Ltac unfold_host :=
  unfold RunBlockingSetup, MoonrakerHost.RunBlockingSetup, BambuHost.RunBlockingSetup,
    DoFirstTimeSetupIfNeeded, MoonrakerHost.DoFirstTimeSetupIfNeeded,
    BambuHost.DoFirstTimeSetupIfNeeded, BambuHost.when_dev,
    SetPrinterId, SetPrivateKey, log_info, log_warning, log.

Lemma bootstrap_aborts_at_raise (h : Host) (env : Env) :
  aborts_at_raise env (DoFirstTimeSetupIfNeeded h env).
Proof. destruct h; unfold_host; inv_solve. Qed.

Lemma setup_aborts_at_raise (h : Host) (env : Env) devConfig :
  aborts_at_raise env (RunBlockingSetup h env devConfig).
Proof. destruct h; unfold_host; inv_solve. Qed.

Lemma setup_no_relay_run (h : Host) (env : Env) devConfig :
  no_relay_run (RunBlockingSetup h env devConfig).
Proof. destruct h; unfold_host; inv_solve. Qed.

Lemma RunBlockingBody_eq (h : Host) (env : Env) devConfig :
  RunBlockingBody h env devConfig =
  bind (RunBlockingSetup h env devConfig) (fun _ => ext env COctoEverywhereRunBlocking).
Proof. destruct h; reflexivity. Qed.

Lemma RunBlocking_eq (h : Host) (env : Env) devConfig :
  RunBlocking h env devConfig =
  bind (try_except (RunBlockingBody h env devConfig)
                   (fun e => SentryException host_crash_msg e))
       (fun _ => MoonrakerHost.FlushLogs env).
Proof. destruct h; reflexivity. Qed.

(** The body: a call that raised is the one whose exception the body
    raises, and the relay run loop is reached only if no earlier call raised. *)
Lemma RunBlockingBody_shape (h : Host) (env : Env) devConfig (w : World) :
  exists new,
    w_trace (snd (RunBlockingBody h env devConfig w)) = app (w_trace w) new /\
    forall c e, env_raises env c = Some e -> In (EvCall c) new ->
      fst (RunBlockingBody h env devConfig w) = Raise e /\
      (c = COctoEverywhereRunBlocking \/ ~ In (EvCall COctoEverywhereRunBlocking) new).
Proof.
  rewrite RunBlockingBody_eq.
  destruct (setup_aborts_at_raise h env devConfig w) as [n1 [T1 A1]].
  destruct (setup_no_relay_run h env devConfig w) as [n2 [T2 N2]].
  rewrite T1 in T2. apply app_inv_head in T2. subst n2.
  unfold bind. revert T1 A1.
  destruct (RunBlockingSetup h env devConfig w) as [[u|e'] w1]; cbn; intros T1 A1.
  - unfold ext, bind, emit; cbn.
    exists (app n1 [EvCall COctoEverywhereRunBlocking]).
    destruct (env_raises env COctoEverywhereRunBlocking) as [er|] eqn:Hr; cbn;
      (split; [rewrite T1; symmetry; apply app_assoc|]);
      intros c e Hc Hin; apply in_app_or in Hin as [Hin|[Hin|[]]];
      try (rewrite (A1 c Hin) in Hc; discriminate);
      injection Hin as <-; rewrite Hr in Hc; try discriminate.
    injection Hc as <-. auto.
  - exists n1. split; [exact T1|].
    destruct A1 as [pre [c' [-> [Hpre Hc']]]].
    intros c e Hc Hin. apply in_app_or in Hin as [Hin|[Hin|[]]].
    + rewrite (Hpre c Hin) in Hc. discriminate.
    + injection Hin as <-. rewrite Hc' in Hc. injection Hc as <-. auto.
Qed.

Lemma FlushLogs_shape (env : Env) (w : World) :
  exists tail,
    w_trace (snd (MoonrakerHost.FlushLogs env w)) = app (w_trace w) tail /\
    In (EvCall CLoggingShutdown) tail /\
    (forall c, In (EvCall c) tail -> c = CLoggingShutdown) /\
    match fst (MoonrakerHost.FlushLogs env w) with
    | Ok _ => True
    | Raise e => is_Exception e = false
    end.
Proof.
  unfold MoonrakerHost.FlushLogs, try_except, log_info, log, ext, py_print, bind, emit, ret, raise.
  destruct (env_raises env CLoggingShutdown) as [[[|] m]|]; cbn;
    eexists; (split; [rewrite <- !app_assoc; reflexivity|]);
    cbn; (split; [tauto|]); (split; [|auto]);
    intros c Hc; repeat destruct Hc as [Hc|Hc]; try discriminate; try contradiction;
    injection Hc; auto.
Qed.

(** The whole run: the body's events, then the crash report and the flush. *)
Lemma RunBlocking_decomp (h : Host) (env : Env) devConfig (w : World) :
  exists bnew tail,
    w_trace (snd (RunBlocking h env devConfig w)) = app (w_trace w) (app bnew tail) /\
    (forall c, In (EvCall c) tail -> c = CLoggingShutdown) /\
    (forall c e, env_raises env c = Some e -> In (EvCall c) bnew ->
       (c = COctoEverywhereRunBlocking \/ ~ In (EvCall COctoEverywhereRunBlocking) bnew) /\
       (is_Exception e = true ->
          In (EvSentryException host_crash_msg e) tail /\ In (EvCall CLoggingShutdown) tail)) /\
    match fst (RunBlocking h env devConfig w) with
    | Ok _ => In (EvCall CLoggingShutdown) tail
    | Raise e => is_Exception e = false
    end.
Proof.
  rewrite RunBlocking_eq.
  destruct (RunBlockingBody_shape h env devConfig w) as [bn [TB HB]].
  unfold bind, try_except. revert TB HB.
  destruct (RunBlockingBody h env devConfig w) as [[u|eb] wb]; cbn; intros TB HB.
  - destruct (FlushLogs_shape env wb) as [tl [TF [Hsd [Hcl Hr]]]].
    exists bn, tl. split; [rewrite TF, TB; symmetry; apply app_assoc|].
    split; [exact Hcl|]. split.
    + intros c e Hc Hin. destruct (HB c e Hc Hin) as [Habs _]. discriminate.
    + destruct (fst (MoonrakerHost.FlushLogs env wb)); auto.
  - destruct (is_Exception eb) eqn:Hexn.
    + unfold SentryException, emit; cbn.
      set (w2 := {| w_printer_id := w_printer_id wb; w_private_key := w_private_key wb;
                    w_trace := app (w_trace wb) [EvSentryException host_crash_msg eb] |}).
      destruct (FlushLogs_shape env w2) as [tl [TF [Hsd [Hcl Hr]]]].
      exists bn, (EvSentryException host_crash_msg eb :: tl).
      split; [rewrite TF; cbn; rewrite TB, <- !app_assoc; reflexivity|].
      split; [intros c [Hc|Hc]; [discriminate|auto]|]. split.
      * intros c e Hc Hin. destruct (HB c e Hc Hin) as [He Hrel].
        injection He as <-. split; [exact Hrel|]. intros _. split; [left; reflexivity|right; exact Hsd].
      * destruct (fst (MoonrakerHost.FlushLogs env w2)); [right; exact Hsd|exact Hr].
    + exists bn, []. rewrite app_nil_r. split; [exact TB|].
      split; [intros c []|]. split; [|exact Hexn].
      intros c e Hc Hin. destruct (HB c e Hc Hin) as [He Hrel].
      injection He as <-. split; [exact Hrel|]. rewrite Hexn. discriminate.
Qed.

Lemma boot_state_trace (p k : option string) : w_trace (boot_state p k) = [].
Proof. reflexivity. Qed.

(** A raising call recorded by a bootstrap run is the exception it raises. *)
Lemma bootstrap_raises_recorded (h : Host) (env : Env) (w : World) (c : Call) (e : Exn) :
  env_raises env c = Some e ->
  In (EvCall c) (w_trace (snd (DoFirstTimeSetupIfNeeded h env w))) ->
  ~ In (EvCall c) (w_trace w) ->
  fst (DoFirstTimeSetupIfNeeded h env w) = Raise e.
Proof.
  intros Hc Hin Hold.
  destruct (bootstrap_aborts_at_raise h env w) as [new [T A]].
  rewrite T in Hin. apply in_app_or in Hin as [Hin|Hin]; [contradiction|].
  revert A. destruct (fst (DoFirstTimeSetupIfNeeded h env w)) as [u|e']; intro A.
  - rewrite (A c Hin) in Hc. discriminate.
  - destruct A as [pre [c' [-> [Hpre Hc']]]].
    apply in_app_or in Hin as [Hin|[Hin|[]]].
    + rewrite (Hpre c Hin) in Hc. discriminate.
    + injection Hin as <-. rewrite Hc' in Hc. injection Hc as <-. reflexivity.
Qed.

(** A call other than the relay run and the flush that raised means the
    relay run loop was never started. *)
Lemma RunBlocking_raise_stops_relay (h : Host) (env : Env) devConfig
    (printerId privateKey : option string) (c : Call) (e : Exn) :
  env_raises env c = Some e ->
  c <> COctoEverywhereRunBlocking -> c <> CLoggingShutdown ->
  In (EvCall c) (w_trace (snd (RunBlocking h env devConfig (boot_state printerId privateKey)))) ->
  ~ In (EvCall COctoEverywhereRunBlocking)
       (w_trace (snd (RunBlocking h env devConfig (boot_state printerId privateKey)))).
Proof.
  intros Hc Hrel Hfl.
  destruct (RunBlocking_decomp h env devConfig (boot_state printerId privateKey))
    as [bn [tl [T [Htl [Hb _]]]]].
  rewrite T, boot_state_trace. cbn [app]. intros Hin Hin'.
  apply in_app_or in Hin as [Hin|Hin]; [|apply Htl in Hin; contradiction].
  destruct (Hb c e Hc Hin) as [[Heq|Hnot] _]; [contradiction|].
  apply in_app_or in Hin' as [Hin'|Hin']; [contradiction|].
  apply Htl in Hin'. discriminate.
Qed.

(** An [Exception] raised by a call other than the flush is reported, and
    the flush is attempted. *)
Lemma RunBlocking_reports (h : Host) (env : Env) devConfig
    (printerId privateKey : option string) (c : Call) (e : Exn) :
  env_raises env c = Some e -> is_Exception e = true -> c <> CLoggingShutdown ->
  In (EvCall c) (w_trace (snd (RunBlocking h env devConfig (boot_state printerId privateKey)))) ->
  In (EvSentryException host_crash_msg e)
     (w_trace (snd (RunBlocking h env devConfig (boot_state printerId privateKey)))) /\
  In (EvCall CLoggingShutdown)
     (w_trace (snd (RunBlocking h env devConfig (boot_state printerId privateKey)))).
Proof.
  intros Hc Hexn Hfl.
  destruct (RunBlocking_decomp h env devConfig (boot_state printerId privateKey))
    as [bn [tl [T [Htl [Hb _]]]]].
  rewrite T, boot_state_trace. cbn [app]. intros Hin.
  apply in_app_or in Hin as [Hin|Hin]; [|apply Htl in Hin; contradiction].
  destruct (Hb c e Hc Hin) as [_ Hrep]. destruct (Hrep Hexn) as [H1 H2].
  split; apply in_or_app; right; assumption.
Qed.

(** C2 counterexample: the Bambu bootstrap on a device with no printer id
    (a first run) never calls the first-run hook. *)
Lemma C2_counterexample :
  is_absent (w_printer_id (boot_state None None)) = true /\
  hook_calls (w_trace (snd (DoFirstTimeSetupIfNeeded Bambu env_ok (boot_state None None)))) = 0%nat.
Proof. split; vm_compute; reflexivity. Qed.

Definition valid_printer_id : string := GeneratePrinterId (fun i => 3 * i).

Lemma C3_witness :
  printer_id_writes Moonraker
    (w_trace (snd (DoFirstTimeSetupIfNeeded Moonraker env_ok
                     (boot_state (Some valid_printer_id) (Some "short"))))) = [] /\
  private_key_writes Bambu
    (w_trace (snd (DoFirstTimeSetupIfNeeded Bambu env_ok
                     (boot_state (Some "bad-id") (Some (GeneratePrivateKey (fun i => i))))))) = [].
Proof.
  split.
  - generalize (C3_identity_regeneration_independent Moonraker env_ok
                  (Some valid_printer_id) (Some "short")).
    destruct (DoFirstTimeSetupIfNeeded Moonraker env_ok
                (boot_state (Some valid_printer_id) (Some "short"))) as [r w'].
    intros [H _]. apply H; vm_compute; reflexivity.
  - generalize (C3_identity_regeneration_independent Bambu env_ok
                  (Some "bad-id") (Some (GeneratePrivateKey (fun i => i)))).
    destruct (DoFirstTimeSetupIfNeeded Bambu env_ok
                (boot_state (Some "bad-id") (Some (GeneratePrivateKey (fun i => i)))))
      as [r w'].
    intros [_ H]. apply H; vm_compute; reflexivity.
Defined.

(** C4 *)
(** Claim C4: when an identity-store write raises during the bootstrap of
    either host, the bootstrap raises that very exception, and the run
    ([RunBlocking]) never starts the relay client's blocking run loop. *)
Theorem C4_store_write_failure_is_fatal :
  forall (h : Host) (env : Env) devConfig (printerId privateKey : option string)
         (c : Call) (e : Exn),
    is_store_write c = true -> env_raises env c = Some e ->
    (In (EvCall c) (w_trace (snd (DoFirstTimeSetupIfNeeded h env (boot_state printerId privateKey)))) ->
       fst (DoFirstTimeSetupIfNeeded h env (boot_state printerId privateKey)) = Raise e) /\
    (In (EvCall c) (w_trace (snd (RunBlocking h env devConfig (boot_state printerId privateKey)))) ->
       ~ In (EvCall COctoEverywhereRunBlocking)
            (w_trace (snd (RunBlocking h env devConfig (boot_state printerId privateKey))))).
Proof.
  intros h env devConfig printerId privateKey c e Hw Hc. split.
  - intro Hin. apply (bootstrap_raises_recorded h env _ c e Hc Hin).
    rewrite boot_state_trace. intros [].
  - apply (RunBlocking_raise_stops_relay h env devConfig printerId privateKey c e Hc);
      intros ->; discriminate Hw.
Qed.

Definition failing_pid_write : Call :=
  printer_id_write Moonraker (GeneratePrinterId (env_rand_pid env_store_write_fails)).

Lemma C4_witness :
  fst (DoFirstTimeSetupIfNeeded Moonraker env_store_write_fails (boot_state None None))
    = Raise io_error /\
  ~ In (EvCall COctoEverywhereRunBlocking)
       (w_trace (snd (RunBlocking Moonraker env_store_write_fails None (boot_state None None)))).
Proof.
  destruct (C4_store_write_failure_is_fatal Moonraker env_store_write_fails None None None
              failing_pid_write io_error) as [H1 H2];
    [vm_compute; reflexivity | vm_compute; reflexivity |].
  split; [apply H1 | apply H2]; vm_compute; tauto.
Defined.

(** C9 counterexample: on the Moonraker host, [Telemetry.Init] raising an
    [Exception] ends the startup: the relay run loop is never started. *)
Lemma C9_counterexample :
  In (EvCall CTelemetryInit)
     (w_trace (snd (RunBlocking Moonraker env_telemetry_fails None (boot_state None None)))) /\
  ~ In (EvCall COctoEverywhereRunBlocking)
       (w_trace (snd (RunBlocking Moonraker env_telemetry_fails None (boot_state None None)))).
Proof. split; vm_compute; intuition discriminate. Qed.

(** C10 counterexample: a [KeyboardInterrupt] (Ctrl-C) raised inside the
    relay's blocking run loop is not an [Exception]: it propagates out of
    [RunBlocking], and the exit log flush is skipped. *)
Lemma C10_counterexample :
  fst (RunBlocking Moonraker env_relay_interrupted None (boot_state None None))
    = Raise keyboard_interrupt /\
  ~ In (EvCall CLoggingShutdown)
       (w_trace (snd (RunBlocking Moonraker env_relay_interrupted None (boot_state None None)))).
Proof. split; vm_compute; [reflexivity | intuition discriminate]. Qed.

(** ** The fleet updater *)

Lemma with_trace_nil w : with_trace w [] = w.
Proof. destruct w; unfold with_trace; simpl; rewrite app_nil_r; reflexivity. Qed.

Lemma with_trace_app w a b : with_trace (with_trace w a) b = with_trace w (a ++ b)%list.
Proof. destruct w; unfold with_trace; simpl; rewrite app_assoc; reflexivity. Qed.

Lemma emit_with_trace ev w : emit ev w = (Ok tt, with_trace w [ev]).
Proof. reflexivity. Qed.

Lemma bind_ok {A B} (m : M A) (k : A -> M B) w a w' :
  m w = (Ok a, w') -> bind m k w = k a w'.
Proof. intros H; unfold bind; rewrite H; reflexivity. Qed.

Lemma collect_eq p l acc w :
  Updater.collect p l acc w =
  (Ok (acc ++ filter (Updater.matches p) l)%list,
   with_trace w (map (fun n => EvLog LDebug (" Searching for OE services to update, found: " ++ n)) l)).
Proof.
  revert acc w; induction l as [|n l IH]; intros acc w.
  - cbn [Updater.collect filter map]. rewrite app_nil_r, with_trace_nil. reflexivity.
  - cbn [Updater.collect]. unfold Logger_Debug, log. rewrite (bind_ok _ _ _ tt _ (emit_with_trace _ w)).
    rewrite IH, with_trace_app. cbn [filter map].
    destruct (Updater.matches p n); rewrite <- ?app_assoc; reflexivity.
Qed.

Lemma for_each_eq {A} (l : list A) (f : A -> M unit) (evs : A -> list Event) w :
  (forall x w, f x w = (Ok tt, with_trace w (evs x))) ->
  for_each l f w = (Ok tt, with_trace w (flat_map evs l)).
Proof.
  intros Hf; revert w; induction l as [|x l IH]; intros w.
  - cbn. rewrite with_trace_nil. reflexivity.
  - cbn [for_each flat_map]. rewrite (bind_ok _ _ _ tt _ (Hf x w)), IH, with_trace_app.
    reflexivity.
Qed.

Lemma restart_one_eq env s w :
  Updater.restart_one env s w = (Ok tt, with_trace w (restart_events env s)).
Proof.
  unfold Updater.restart_one, RunShellCommand.
  rewrite (bind_ok _ _ _ (env_shell env (restart_cmd s)) (with_trace w [EvCall (CRunShellCommand (restart_cmd s))])) by reflexivity.
  unfold restart_events, restart_failed, restart_warning.
  destruct (negb _).
  - unfold Logger_Warn, log. rewrite emit_with_trace, with_trace_app. reflexivity.
  - reflexivity.
Qed.


Lemma ReportUpdateDone_eq env w :
  Updater.ReportUpdateDone env w =
  match env_raises env CVersionGetPluginVersion with
  | None => (Ok tt, with_trace w ([EvCall CVersionGetPluginVersion] ++
                                   update_banner_events (env_plugin_version env)))
  | Some e =>
      if is_Exception e then
        (Ok tt, with_trace w ([EvCall CVersionGetPluginVersion;
                               EvLog LWarning ("Failed to parse setup.py for plugin version. " ++ exn_msg e)] ++
                              update_banner_events "Unknown"))
      else (Raise e, with_trace w [EvCall CVersionGetPluginVersion])
  end.
Proof.
  destruct w as [pid key tr].
  unfold Updater.ReportUpdateDone, try_except, ext, Logger_Warn, Logger_Blank,
    Logger_Header, Logger_Info, Logger_Purple, log, bind, ret, raise, emit, with_trace.
  destruct (env_raises env CVersionGetPluginVersion) as [e|];
    [destruct (is_Exception e)|]; cbv beta iota zeta; cbn [w_trace w_printer_id w_private_key];
    rewrite <- ?app_assoc; reflexivity.
Qed.


Lemma bind_raise {A B} (m : M A) (k : A -> M B) w e w' :
  m w = (Raise e, w') -> bind m k w = (Raise e, w').
Proof. intros H; unfold bind; rewrite H; reflexivity. Qed.

Lemma listdir_eq env w :
  env_raises env CListDir = None ->
  listdir env w = (Ok (env_listdir env), with_trace w [EvCall CListDir]).
Proof. intros H; unfold listdir, ext, bind, emit, ret; rewrite H; reflexivity. Qed.

Lemma DoUpdate_eq p env w :
  env_raises env CListDir = None ->
  Updater.DoUpdate p env w =
  let found := selected_services p (env_listdir env) in
  let w1 := with_trace w ([EvLog LHeader "Starting Update Logic"; EvCall CListDir] ++
                          map search_event (sorted (env_listdir env))) in
  match found with
  | [] => (Raise (mkExn PyException no_services_msg), with_trace w1 [EvLog LWarning no_services_msg])
  | _ :: _ =>
      Updater.ReportUpdateDone env
        (with_trace w1 ([EvLog LInfo "We found the following plugins to update:"] ++
                        map (fun s => EvLog LInfo ("  " ++ s)) found ++
                        [EvLog LInfo "Restarting services..."] ++
                        flat_map (restart_events env) found))
  end.
Proof.
  intros Hl. unfold Updater.DoUpdate, Logger_Header, log.
  rewrite (bind_ok _ _ _ _ _ (emit_with_trace _ _)).
  rewrite (bind_ok _ _ _ _ _ (listdir_eq _ _ Hl)).
  rewrite (bind_ok _ _ _ _ _ (collect_eq _ _ _ _)).
  rewrite !with_trace_app. cbn zeta. unfold selected_services. cbn [app].
  destruct (filter (Updater.matches p) (sorted (env_listdir env))) as [|s found] eqn:Hf.
  - cbn [List.length Nat.eqb]. unfold Logger_Warn, log.
    unfold bind at 1 2. rewrite emit_with_trace. cbv beta iota.
    unfold raise. rewrite with_trace_app. reflexivity.
  - cbn [List.length Nat.eqb]. unfold Logger_Info, log.
    rewrite (bind_ok _ _ _ tt _ (eq_refl : ret tt _ = _)).
    rewrite (bind_ok _ _ _ _ _ (emit_with_trace _ _)).
    rewrite (bind_ok _ _ _ _ _ (for_each_eq _ _ (fun s => [EvLog LInfo ("  " ++ s)]) _ (fun x w => eq_refl))).
    rewrite (bind_ok _ _ _ _ _ (emit_with_trace _ _)).
    rewrite (bind_ok _ _ _ _ _ (for_each_eq _ _ _ _ (restart_one_eq env))).
    rewrite !with_trace_app. f_equal.
Qed.

Lemma string_leb_trans a b c :
  String.leb a b = true -> String.leb b c = true -> String.leb a c = true.
Proof.
  unfold String.leb. revert b c.
  induction a as [|x a IH]; intros [|y b] [|z c]; cbn [String.compare]; try discriminate; auto.
  unfold Ascii.compare.
  destruct (N.compare_spec (N_of_ascii x) (N_of_ascii y)) as [Hxy|Hxy|Hxy];
  destruct (N.compare_spec (N_of_ascii y) (N_of_ascii z)) as [Hyz|Hyz|Hyz];
  try discriminate; intros H1 H2.
  - replace (N.compare (N_of_ascii x) (N_of_ascii z)) with Eq
      by (symmetry; apply N.compare_eq_iff; congruence).
    exact (IH _ _ H1 H2).
  - replace (N.compare (N_of_ascii x) (N_of_ascii z)) with Lt
      by (symmetry; apply N.compare_lt_iff; lia).
    reflexivity.
  - replace (N.compare (N_of_ascii x) (N_of_ascii z)) with Lt
      by (symmetry; apply N.compare_lt_iff; lia).
    reflexivity.
  - replace (N.compare (N_of_ascii x) (N_of_ascii z)) with Lt
      by (symmetry; apply N.compare_lt_iff; lia).
    reflexivity.
Qed.

Lemma StronglySorted_filter {A} (R : A -> A -> Prop) (f : A -> bool) l :
  StronglySorted R l -> StronglySorted R (filter f l).
Proof.
  induction 1 as [|x l Hs IH Hall]; cbn [filter]; [constructor|].
  destruct (f x); [|exact IH].
  constructor; [exact IH|].
  rewrite Forall_forall in *. intros y Hy. apply filter_In in Hy. exact (Hall y (proj1 Hy)).
Qed.

Lemma selected_services_sorted p l :
  StronglySorted (fun a b => String.leb a b = true) (selected_services p l).
Proof.
  apply StronglySorted_filter, StrSort.StronglySorted_sort.
  intros a b c; apply string_leb_trans.
Qed.

Lemma selected_services_In p l n :
  In n (selected_services p l) <-> In n l /\ Updater.matches p n = true.
Proof.
  unfold selected_services, sorted. rewrite filter_In.
  pose proof (StrSort.Permuted_sort l) as Hp.
  split; intros [H1 H2]; split; auto.
  - apply Permutation_in with (l := StrSort.sort l); [symmetry; exact Hp | exact H1].
  - apply Permutation_in with (l := l); [exact Hp | exact H1].
Qed.

Lemma lower_cons a s : lower (String a s) = String (ascii_lower a) (lower s).
Proof. reflexivity. Qed.

Lemma ascii_lower_idem a : ascii_lower (ascii_lower a) = ascii_lower a.
Proof. destruct a as [[] [] [] [] [] [] [] []]; reflexivity. Qed.

Lemma lower_idem s : lower (lower s) = lower s.
Proof.
  induction s as [|a s IH]; [reflexivity|].
  rewrite !lower_cons, ascii_lower_idem, IH. reflexivity.
Qed.

Lemma prefix_lower p s :
  String.prefix p s = true -> String.prefix (lower p) (lower s) = true.
Proof.
  revert s; induction p as [|a p IH]; intros [|b s]; try reflexivity; try discriminate.
  rewrite !lower_cons. cbn [String.prefix].
  destruct (ascii_dec a b) as [<-|]; [|discriminate].
  destruct (ascii_dec (ascii_lower a) (ascii_lower a)) as [_|Hn]; [|congruence].
  apply IH.
Qed.

(** A name the code selects starts with the prefix ignoring case. *)
Lemma matches_ci p n : Updater.matches p n = true -> ci_startswith n p = true.
Proof.
  unfold Updater.matches, ci_startswith, startswith. intros H.
  rewrite <- (lower_idem n). apply prefix_lower, H.
Qed.

(** For a prefix without upper-case letters the two tests agree. *)
Lemma matches_ci_lower p n : lower p = p -> Updater.matches p n = ci_startswith n p.
Proof. intros Hp. unfold Updater.matches, ci_startswith. rewrite Hp. reflexivity. Qed.

Lemma restart_cmds_app a b : restart_cmds (a ++ b)%list = (restart_cmds a ++ restart_cmds b)%list.
Proof. unfold restart_cmds. apply flat_map_app. Qed.

Lemma restart_warnings_app a b :
  restart_warnings (a ++ b)%list = (restart_warnings a ++ restart_warnings b)%list.
Proof. unfold restart_warnings, warnings. rewrite flat_map_app. apply filter_app. Qed.

Lemma restart_cmds_logs (f : string -> Event) l :
  (forall s, exists lvl m, f s = EvLog lvl m) -> restart_cmds (map f l) = [].
Proof.
  intros Hf; induction l as [|s l IH]; [reflexivity|].
  destruct (Hf s) as (lvl & m & E). change (map f (s :: l)) with ([f s] ++ map f l)%list.
  rewrite restart_cmds_app, IH, E. reflexivity.
Qed.

Lemma restart_warnings_logs (f : string -> Event) l :
  (forall s, exists lvl m, f s = EvLog lvl m /\ lvl <> LWarning) -> restart_warnings (map f l) = [].
Proof.
  intros Hf; induction l as [|s l IH]; [reflexivity|].
  destruct (Hf s) as (lvl & m & E & Hl). change (map f (s :: l)) with ([f s] ++ map f l)%list.
  rewrite restart_warnings_app, IH, E.
  destruct lvl; try reflexivity; congruence.
Qed.

Lemma restart_cmds_restarts env l :
  restart_cmds (flat_map (restart_events env) l) = map restart_cmd l.
Proof.
  induction l as [|s l IH]; [reflexivity|].
  cbn [flat_map map]. rewrite restart_cmds_app, IH.
  unfold restart_events. destruct (restart_failed env s); reflexivity.
Qed.

Lemma restart_warning_prefix env s : String.prefix "Service " (restart_warning env s) = true.
Proof. unfold restart_warning. cbn. destruct (s ++ _); reflexivity. Qed.

Lemma restart_warnings_restarts env l :
  restart_warnings (flat_map (restart_events env) l) =
  map (restart_warning env) (filter (restart_failed env) l).
Proof.
  induction l as [|s l IH]; [reflexivity|].
  cbn [flat_map filter]. rewrite restart_warnings_app, IH.
  unfold restart_events. destruct (restart_failed env s); [|reflexivity].
  unfold restart_warnings at 1. cbn [warnings flat_map app filter].
  rewrite restart_warning_prefix. reflexivity.
Qed.

Lemma banner_quiet v :
  restart_cmds (update_banner_events v) = [] /\ restart_warnings (update_banner_events v) = [].
Proof. split; reflexivity. Qed.

(** What an update run does, as seen in its trace and result. *)
Lemma DoUpdate_obs p env w :
  env_raises env CListDir = None ->
  let sel := selected_services p (env_listdir env) in
  let '(r, w') := Updater.DoUpdate p env w in
  restart_cmds (w_trace w') = (restart_cmds (w_trace w) ++ map restart_cmd sel)%list /\
  restart_warnings (w_trace w') =
    (restart_warnings (w_trace w) ++ map (restart_warning env) (filter (restart_failed env) sel))%list /\
  (sel = [] -> r = Raise (mkExn PyException no_services_msg)) /\
  (sel <> [] -> (r = Ok tt /\ In (EvLog LInfo "    OctoEverywhere Update Successful") (w_trace w'))
                \/ (exists e, r = Raise e /\ is_Exception e = false)).
Proof.
  intros Hl sel. rewrite (DoUpdate_eq p env w Hl). cbv zeta. fold sel.
  assert (Hpre : forall tr, restart_cmds (w_trace (with_trace w tr)) = (restart_cmds (w_trace w) ++ restart_cmds tr)%list
                 /\ restart_warnings (w_trace (with_trace w tr)) = (restart_warnings (w_trace w) ++ restart_warnings tr)%list)
    by (intros tr; split; [apply restart_cmds_app | apply restart_warnings_app]).
  assert (Hsearch : restart_cmds (map search_event (sorted (env_listdir env))) = [] /\
                    restart_warnings (map search_event (sorted (env_listdir env))) = []).
  { split; [apply restart_cmds_logs | apply restart_warnings_logs];
      intros s; do 2 eexists; [reflexivity | split; [reflexivity | discriminate]]. }
  destruct Hsearch as [Hs1 Hs2].
  destruct sel as [|s found] eqn:Hsel.
  - rewrite with_trace_app, (proj1 (Hpre _)), (proj2 (Hpre _)),
      !restart_cmds_app, !restart_warnings_app, Hs1, Hs2.
    cbn. rewrite !app_nil_r. repeat split; try reflexivity. intros []; reflexivity.
  - rewrite ReportUpdateDone_eq.
    assert (Hi : restart_cmds (map (fun s => EvLog LInfo ("  " ++ s)) (s :: found)) = [] /\
                 restart_warnings (map (fun s => EvLog LInfo ("  " ++ s)) (s :: found)) = []).
    { split; [apply restart_cmds_logs | apply restart_warnings_logs];
        intros x; do 2 eexists; [reflexivity | split; [reflexivity | discriminate]]. }
    destruct Hi as [Hi1 Hi2].
    destruct (env_raises env CVersionGetPluginVersion) as [e|];
      [destruct (is_Exception e) eqn:He|]; rewrite !with_trace_app;
      (split; [rewrite (proj1 (Hpre _)), !restart_cmds_app, Hs1, Hi1, restart_cmds_restarts,
                 ?(proj1 (banner_quiet _)); cbn; rewrite ?app_nil_r; reflexivity|]);
      (split; [rewrite (proj2 (Hpre _)), !restart_warnings_app, Hs2, Hi2, restart_warnings_restarts,
                 ?(proj2 (banner_quiet _)); cbn; rewrite ?app_nil_r; reflexivity|]);
      (split; [intros H; discriminate H|]); intros _.
    + left. split; [reflexivity|]. unfold with_trace. cbn [w_trace].
      repeat (apply in_or_app; right).
      unfold update_banner_events. cbn [In]. repeat (first [left; reflexivity | right]).
    + right. exists e. split; [reflexivity | exact He].
    + left. split; [reflexivity|]. unfold with_trace. cbn [w_trace].
      repeat (apply in_or_app; right).
      unfold update_banner_events. cbn [In]. repeat (first [left; reflexivity | right]).
Qed.

Lemma Permutation_filter_ {A} (f : A -> bool) l l' :
  Permutation l l' -> Permutation (filter f l) (filter f l').
Proof.
  induction 1 as [|x l l' _ IH|x y l|l l' l'' _ IH1 _ IH2]; cbn [filter].
  - constructor.
  - destruct (f x); [constructor|]; exact IH.
  - destruct (f x), (f y); try constructor; reflexivity.
  - etransitivity; eassumption.
Qed.

Lemma selected_services_perm p l :
  lower p = p ->
  Permutation (selected_services p l) (filter (fun n => ci_startswith n p) l).
Proof.
  intros Hp. unfold selected_services, sorted.
  rewrite (filter_ext (Updater.matches p) (fun n => ci_startswith n p)) by (intros n; apply matches_ci_lower, Hp).
  symmetry. apply Permutation_filter_, StrSort.Permuted_sort.
Qed.

Lemma warnings_app a b : warnings (a ++ b)%list = (warnings a ++ warnings b)%list.
Proof. unfold warnings. apply flat_map_app. Qed.

(** C5.  [Updater.DoUpdate] reads its prefix from the constant
    [Configure.c_ServiceCommonNamePrefix] ("octoeverywhere").  For every
    listing that can be read, the update run restarts exactly the entries
    whose names start with that prefix ignoring case: the restart commands
    follow the selected list, which is in sorted order and is a permutation of
    the case-insensitively matching entries of the listing.  On the example
    directory, the two [octoeverywhere] entries are restarted in sorted order
    and [other-app.service] is not. *)
Theorem C5_update_restarts_ci_matches_sorted (env : Env) (w : World)
  (Hl : env_raises env CListDir = None) :
  let p := Configure_c_ServiceCommonNamePrefix in
  let sel := selected_services p (env_listdir env) in
  restart_cmds (w_trace (snd (Updater.DoUpdate p env w))) =
    (restart_cmds (w_trace w) ++ map restart_cmd sel)%list /\
  StronglySorted (fun a b => String.leb a b = true) sel /\
  Permutation sel (filter (fun n => ci_startswith n p) (env_listdir env)) /\
  (forall n, In n sel <-> In n (env_listdir env) /\ ci_startswith n p = true) /\
  restart_cmds (w_trace (snd (Updater.DoUpdate p env_ok (boot_state None None)))) =
    ["systemctl restart OctoEverywhere-companion.service";
     "systemctl restart octoeverywhere-bambu.service"] /\
  ~ In "systemctl restart other-app.service"
      (restart_cmds (w_trace (snd (Updater.DoUpdate p env_ok (boot_state None None))))).
Proof.
  intros p sel.
  assert (Hp : lower p = p) by reflexivity.
  pose proof (DoUpdate_obs p env w Hl) as Hobs. cbv zeta in Hobs.
  destruct (Updater.DoUpdate p env w) as [r w'] eqn:E. destruct Hobs as (Hc & _ & _ & _).
  split; [exact Hc|]. split; [apply selected_services_sorted|].
  split; [apply selected_services_perm, Hp|]. split.
  - intros n. unfold sel. rewrite selected_services_In, (matches_ci_lower _ _ Hp). reflexivity.
  - split; vm_compute; [reflexivity | intuition discriminate].
Qed.

Lemma C5_witness :
  env_raises env_ok CListDir = None /\
  restart_cmds (w_trace (snd (Updater.DoUpdate Configure_c_ServiceCommonNamePrefix env_ok
                                (boot_state None None)))) =
    map restart_cmd ["OctoEverywhere-companion.service"; "octoeverywhere-bambu.service"].
Proof.
  assert (Hl : env_raises env_ok CListDir = None) by reflexivity.
  split; [exact Hl|].
  destruct (C5_update_restarts_ci_matches_sorted env_ok (boot_state None None) Hl) as (Hc & _).
  rewrite Hc. vm_compute. reflexivity.
Defined.

(** C6.  If no entry of the listing starts with the prefix ignoring case,
    the update run fails with the exception "No local plugins or companions
    were found." and issues no restart command. *)
Theorem C6_no_match_fails_without_restarts (p : string) (env : Env) (w : World)
  (Hl : env_raises env CListDir = None)
  (Hno : forall n, In n (env_listdir env) -> ci_startswith n p = false) :
  fst (Updater.DoUpdate p env w) = Raise (mkExn PyException no_services_msg) /\
  restart_cmds (w_trace (snd (Updater.DoUpdate p env w))) = restart_cmds (w_trace w).
Proof.
  assert (Hsel : selected_services p (env_listdir env) = []).
  { destruct (selected_services p (env_listdir env)) as [|n l] eqn:E; [reflexivity|].
    assert (Hn : In n (selected_services p (env_listdir env))) by (rewrite E; left; reflexivity).
    apply selected_services_In in Hn as [Hin Hm].
    apply matches_ci in Hm. rewrite (Hno n Hin) in Hm. discriminate. }
  pose proof (DoUpdate_obs p env w Hl) as Hobs. cbv zeta in Hobs.
  destruct (Updater.DoUpdate p env w) as [r w'] eqn:E. destruct Hobs as (Hc & _ & Hr & _).
  rewrite Hsel in Hc, Hr. cbn [fst snd]. split; [exact (Hr eq_refl)|].
  rewrite Hc, app_nil_r. reflexivity.
Qed.

Lemma C6_witness :
  fst (Updater.DoUpdate Configure_c_ServiceCommonNamePrefix
         (mk_env (fun _ => None) ["other-app.service"; "moonraker.service"] (fun _ => (0%Z, "")))
         (boot_state None None)) = Raise (mkExn PyException no_services_msg).
Proof.
  refine (proj1 (C6_no_match_fails_without_restarts Configure_c_ServiceCommonNamePrefix
                   (mk_env (fun _ => None) ["other-app.service"; "moonraker.service"] (fun _ => (0%Z, "")))
                   (boot_state None None) eq_refl _)).
  intros n [<-|[<-|[]]]; reflexivity.
Defined.

(** C7 counterexample: [DoUpdate] returns nothing.  With one of the two
    matched restarts failing, the run ends exactly as one where both
    succeed ([Ok tt]); the failure shows only as a warning. *)
Lemma C7_counterexample :
  fst (Updater.DoUpdate Configure_c_ServiceCommonNamePrefix env_one_restart_fails
         (boot_state None None)) = Ok tt /\
  fst (Updater.DoUpdate Configure_c_ServiceCommonNamePrefix env_ok (boot_state None None)) = Ok tt /\
  restart_warnings (w_trace (snd (Updater.DoUpdate Configure_c_ServiceCommonNamePrefix
                                    env_one_restart_fails (boot_state None None)))) =
    ["Service octoeverywhere-bambu.service might have failed to restart. Output: Job failed"].
Proof. vm_compute. repeat split; reflexivity. Qed.

(** The end of an update run that found services: the banner, unless the
    version lookup raises a non-[Exception]. *)
Lemma DoUpdate_end p env w :
  env_raises env CListDir = None ->
  selected_services p (env_listdir env) <> [] ->
  match env_raises env CVersionGetPluginVersion with
  | Some e =>
      if is_Exception e then
        fst (Updater.DoUpdate p env w) = Ok tt /\
        In (EvLog LInfo "    OctoEverywhere Update Successful") (w_trace (snd (Updater.DoUpdate p env w)))
      else fst (Updater.DoUpdate p env w) = Raise e
  | None =>
      fst (Updater.DoUpdate p env w) = Ok tt /\
      In (EvLog LInfo "    OctoEverywhere Update Successful") (w_trace (snd (Updater.DoUpdate p env w)))
  end.
Proof.
  intros Hl Hs. rewrite (DoUpdate_eq p env w Hl). cbv zeta.
  destruct (selected_services p (env_listdir env)) as [|s found]; [congruence|].
  rewrite ReportUpdateDone_eq.
  destruct (env_raises env CVersionGetPluginVersion) as [e|]; [destruct (is_Exception e)|];
    cbn [fst snd]; try reflexivity; (split; [reflexivity|]); unfold with_trace at 1; cbn [w_trace];
    apply in_or_app; right; apply in_or_app; right; unfold update_banner_events;
    cbn [In]; tauto.
Qed.

(** C7 (amended).  For a non-empty matched set, a failed restart does not
    stop the loop: a restart command is issued for every matched entry in
    order, and each entry whose restart exits non-zero gets exactly one
    failure warning naming it.  There is no aggregate result: the run then
    logs the success banner and returns nothing, unless the final version
    lookup raises a [BaseException] that is not an [Exception]
    ([KeyboardInterrupt], [SystemExit]), which propagates. *)
Theorem C7_restart_loop_best_effort (p : string) (env : Env) (w : World)
  (Hl : env_raises env CListDir = None)
  (Hne : selected_services p (env_listdir env) <> []) :
  let sel := selected_services p (env_listdir env) in
  let '(r, w') := Updater.DoUpdate p env w in
  restart_cmds (w_trace w') = (restart_cmds (w_trace w) ++ map restart_cmd sel)%list /\
  restart_warnings (w_trace w') =
    (restart_warnings (w_trace w) ++ map (restart_warning env) (filter (restart_failed env) sel))%list /\
  match env_raises env CVersionGetPluginVersion with
  | Some e =>
      if is_Exception e then r = Ok tt /\ In (EvLog LInfo "    OctoEverywhere Update Successful") (w_trace w')
      else r = Raise e
  | None => r = Ok tt /\ In (EvLog LInfo "    OctoEverywhere Update Successful") (w_trace w')
  end.
Proof.
  intros sel. pose proof (DoUpdate_obs p env w Hl) as Hobs. cbv zeta in Hobs. fold sel in Hobs.
  pose proof (DoUpdate_end p env w Hl Hne) as Hend.
  destruct (Updater.DoUpdate p env w) as [r w'].
  destruct Hobs as (Hc & Hw & _ & _). split; [exact Hc|]. split; [exact Hw|]. exact Hend.
Qed.

Lemma C7_witness :
  restart_cmds (w_trace (snd (Updater.DoUpdate Configure_c_ServiceCommonNamePrefix
                                env_one_restart_fails (boot_state None None)))) =
    ["systemctl restart OctoEverywhere-companion.service";
     "systemctl restart octoeverywhere-bambu.service"] /\
  restart_warnings (w_trace (snd (Updater.DoUpdate Configure_c_ServiceCommonNamePrefix
                                    env_one_restart_fails (boot_state None None)))) =
    ["Service octoeverywhere-bambu.service might have failed to restart. Output: Job failed"].
Proof.
  assert (Hl : env_raises env_one_restart_fails CListDir = None) by reflexivity.
  assert (Hne : selected_services Configure_c_ServiceCommonNamePrefix
                  (env_listdir env_one_restart_fails) <> []) by (vm_compute; discriminate).
  pose proof (C7_restart_loop_best_effort Configure_c_ServiceCommonNamePrefix env_one_restart_fails
                (boot_state None None) Hl Hne) as H. cbv zeta in H.
  destruct (Updater.DoUpdate Configure_c_ServiceCommonNamePrefix env_one_restart_fails
              (boot_state None None)) as [r w'].
  destruct H as (Hc & Hw & _). cbn [snd]. rewrite Hc, Hw. vm_compute. split; reflexivity.
Defined.

(** C8.  With an empty account list the Bambu host logs a warning with the
    printer's linking URL and logs no warning when an account is linked;
    the Moonraker host logs no warning at all, so it never shows the
    linking URL. *)
Theorem C8_unlinked_warning_per_host (env : Env) (octoKey s : string) (key : option string) :
  warnings (w_trace (snd (OnPrimaryConnectionEstablished Moonraker env octoKey (Some [])
                            (boot_state (Some s) key)))) = [] /\
  In (" " ++ GetAddPrinterUrl s)
     (warnings (w_trace (snd (OnPrimaryConnectionEstablished Bambu env octoKey (Some [])
                                (boot_state (Some s) key))))) /\
  (forall a l, warnings (w_trace (snd (OnPrimaryConnectionEstablished Bambu env octoKey (Some (a :: l))
                                        (boot_state (Some s) key)))) = []).
Proof.
  split; [|split].
  - cbn. destruct (env_raises env (CMoonrakerClientStartRunningIfNotAlready octoKey)); reflexivity.
  - cbn. do 6 right. left. reflexivity.
  - intros a l. reflexivity.
Qed.

(** * Further properties of the code *)
Lemma eo_ret {A} ok (a : A) : emits_only ok (ret a).
Proof. intro w. exists []. rewrite app_nil_r. split; [reflexivity | constructor]. Qed.

Lemma eo_emit ok ev : ok ev -> emits_only ok (emit ev).
Proof. intros H w. exists [ev]. split; [reflexivity | repeat constructor; exact H]. Qed.

Lemma eo_ext ok env c : ok (EvCall c) -> emits_only ok (ext env c).
Proof.
  intros H w. exists [EvCall c]. unfold ext, bind, emit.
  destruct (env_raises env c); cbn; (split; [reflexivity | repeat constructor; exact H]).
Qed.

Lemma eo_state {A} ok (m : M A) :
  (forall w, w_trace (snd (m w)) = w_trace w) -> emits_only ok m.
Proof. intros Hm w. exists []. rewrite app_nil_r. split; [apply Hm | constructor]. Qed.

Lemma eo_bind {A B} ok (m : M A) (k : A -> M B) :
  emits_only ok m -> (forall a, emits_only ok (k a)) -> emits_only ok (bind m k).
Proof.
  intros Hm Hk w. unfold bind.
  destruct (Hm w) as [n1 [T1 F1]].
  destruct (m w) as [[a|e] w1]; cbn in *.
  - destruct (Hk a w1) as [n2 [T2 F2]]. exists (app n1 n2).
    split; [rewrite T2, T1; symmetry; apply app_assoc | apply Forall_app; split; assumption].
  - exists n1. split; assumption.
Qed.

Lemma eo_try_except {A} ok (m : M A) (h : Exn -> M A) :
  emits_only ok m -> (forall e, emits_only ok (h e)) -> emits_only ok (try_except m h).
Proof.
  intros Hm Hh w. unfold try_except.
  destruct (Hm w) as [n1 [T1 F1]].
  destruct (m w) as [[a|e] w1]; cbn in *; [exists n1; split; assumption|].
  destruct (is_Exception e); [|exists n1; split; assumption].
  destruct (Hh e w1) as [n2 [T2 F2]]. exists (app n1 n2).
  split; [rewrite T2, T1; symmetry; apply app_assoc | apply Forall_app; split; assumption].
Qed.

Lemma eo_weaken {A} (ok ok' : Event -> Prop) (m : M A) :
  (forall ev, ok ev -> ok' ev) -> emits_only ok m -> emits_only ok' m.
Proof.
  intros Hw Hm w. destruct (Hm w) as [n [T F]]. exists n. split; [exact T|].
  eapply Forall_impl; eassumption.
Qed.

(** A bind whose continuation is only run from worlds satisfying [P]. *)
Lemma eo_bind_post {A B} ok (P : World -> Prop) (m : M A) (k : A -> M B) :
  emits_only ok m ->
  (forall w a, fst (m w) = Ok a -> P (snd (m w))) ->
  (forall a w, P w -> exists new, w_trace (snd (k a w)) = app (w_trace w) new /\ Forall ok new) ->
  emits_only ok (bind m k).
Proof.
  intros Hm Hp Hk w. unfold bind.
  destruct (Hm w) as [n1 [T1 F1]]. specialize (Hp w).
  destruct (m w) as [[a|e] w1]; cbn in *.
  - destruct (Hk a w1 (Hp a eq_refl)) as [n2 [T2 F2]]. exists (app n1 n2).
    split; [rewrite T2, T1; symmetry; apply app_assoc | apply Forall_app; split; assumption].
  - exists n1. split; assumption.
Qed.

Ltac eo_solve :=
  repeat
    match goal with
    | |- emits_only _ (bind _ _) => apply eo_bind; intros
    | |- emits_only _ (try_except _ _) => apply eo_try_except; intros
    | |- emits_only _ (ext _ _) => apply eo_ext; first [solve [auto] | hnf; try split; auto]
    | |- emits_only _ (emit _) => apply eo_emit; first [solve [auto] | hnf; try split; auto]
    | |- emits_only _ (ret _) => apply eo_ret
    | |- emits_only _ GetPrinterId => apply eo_state; reflexivity
    | |- emits_only _ GetPrivateKey => apply eo_state; reflexivity
    | |- emits_only _ (put_printer_id _) => apply eo_state; reflexivity
    | |- emits_only _ (put_private_key _) => apply eo_state; reflexivity
    | |- emits_only _ (if ?b then _ else _) => destruct b
    | |- emits_only _ (match ?x with None => _ | Some _ => _ end) => destruct x
    end.

Lemma bootstrap_emits (ok : Event -> Prop) h env :
  (forall lvl m, ok (EvLog lvl m)) ->
  (forall v, ok (EvCall (printer_id_write h v))) ->
  (forall v, ok (EvCall (private_key_write h v))) ->
  ok (EvCall CEnsureAllowedServicesFile) ->
  emits_only ok (DoFirstTimeSetupIfNeeded h env).
Proof.
  intros Hl Hp Hk Hh. destruct h; unfold_host; eo_solve.
Qed.

Lemma bootstrap_ok_valid h env w :
  fst (DoFirstTimeSetupIfNeeded h env w) = Ok tt ->
  IsPrinterIdValid (w_printer_id (snd (DoFirstTimeSetupIfNeeded h env w))) = true /\
  IsPrivateKeyValid (w_private_key (snd (DoFirstTimeSetupIfNeeded h env w))) = true.
Proof.
  destruct w as [pid key tr]. destruct env as [raises ver port rpid rkey ls sh].
  destruct h; unfold DoFirstTimeSetupIfNeeded, MoonrakerHost.DoFirstTimeSetupIfNeeded,
    BambuHost.DoFirstTimeSetupIfNeeded; boot_split; intros;
    rewrite ?GeneratePrinterId_valid, ?GeneratePrivateKey_valid in *; split; congruence.
Qed.

Lemma bootstrap_noop h env w :
  IsPrinterIdValid (w_printer_id w) = true -> IsPrivateKeyValid (w_private_key w) = true ->
  DoFirstTimeSetupIfNeeded h env w = (Ok tt, w).
Proof.
  destruct w as [pid key tr]. cbn [w_printer_id w_private_key]. intros H1 H2.
  destruct h; unfold DoFirstTimeSetupIfNeeded, MoonrakerHost.DoFirstTimeSetupIfNeeded,
    BambuHost.DoFirstTimeSetupIfNeeded; run_simpl; rewrite H1, H2; reflexivity.
Qed.

Lemma oh_bind {A B} P (m : M A) (k : A -> M B) :
  emits_only (fun _ => True) m -> (forall a, ok_has P (k a)) -> ok_has P (bind m k).
Proof.
  intros Hm Hk w b. unfold bind.
  destruct (Hm w) as [n1 [T1 _]].
  destruct (m w) as [[a|e] w1]; [|discriminate]. cbn in T1.
  intros Hb. destruct (Hk a w1 b Hb) as [n2 [ev [T2 [Hp Hin]]]].
  exists (app n1 n2), ev. split; [rewrite T2, T1; symmetry; apply app_assoc|].
  split; [exact Hp | apply in_or_app; right; exact Hin].
Qed.

Lemma oh_ext (P : Event -> Prop) env c : P (EvCall c) -> ok_has P (ext env c).
Proof.
  intros Hp w a. unfold ext, bind, emit.
  destruct (env_raises env c); cbn; [discriminate|].
  intros _. exists [EvCall c], (EvCall c). split; [reflexivity|]. split; [exact Hp | left; reflexivity].
Qed.

Lemma eo_unfold {A} ok (m : M A) w :
  emits_only ok m -> exists new, w_trace (snd (m w)) = app (w_trace w) new /\ Forall ok new.
Proof. intros H; apply H. Qed.

Lemma bind_GetPrinterId {A} (k : option string -> M A) w :
  bind GetPrinterId k w = k (w_printer_id w) w.
Proof. reflexivity. Qed.

Lemma bind_GetPrivateKey {A} (k : option string -> M A) w :
  bind GetPrivateKey k w = k (w_private_key w) w.
Proof. reflexivity. Qed.

Ltac unfold_setup :=
  unfold RunBlockingSetup, MoonrakerHost.RunBlockingSetup, BambuHost.RunBlockingSetup,
    BambuHost.when_dev, log_info, log_warning, log.

(** Every call that receives the identity during startup gets a valid one. *)
Lemma setup_identity_ok h env devConfig :
  emits_only identity_ok (RunBlockingSetup h env devConfig).
Proof.
  destruct h; unfold_setup;
  repeat match goal with
    | |- emits_only _ (bind (MoonrakerHost.DoFirstTimeSetupIfNeeded ?env) _) =>
        apply (eo_bind_post _ (fun w => IsPrinterIdValid (w_printer_id w) = true /\
                                         IsPrivateKeyValid (w_private_key w) = true));
        [ exact (bootstrap_emits _ Moonraker env (fun _ _ => I) (fun _ => I) (fun _ => I) I)
        | let w := fresh "w" in let Ha := fresh "Ha" in intros w [] Ha; exact (bootstrap_ok_valid Moonraker env w Ha)
        | intros ? w [Hv1 Hv2]; cbv beta; rewrite bind_GetPrinterId; cbv beta; rewrite bind_GetPrivateKey; cbv beta;
          apply eo_unfold ]
    | |- emits_only _ (bind (BambuHost.DoFirstTimeSetupIfNeeded ?env) _) =>
        apply (eo_bind_post _ (fun w => IsPrinterIdValid (w_printer_id w) = true /\
                                         IsPrivateKeyValid (w_private_key w) = true));
        [ exact (bootstrap_emits _ Bambu env (fun _ _ => I) (fun _ => I) (fun _ => I) I)
        | let w := fresh "w" in let Ha := fresh "Ha" in intros w [] Ha; exact (bootstrap_ok_valid Bambu env w Ha)
        | intros ? w [Hv1 Hv2]; cbv beta; rewrite bind_GetPrinterId; cbv beta; rewrite bind_GetPrivateKey; cbv beta;
          apply eo_unfold ]
    | |- emits_only _ (bind _ _) => apply eo_bind; [eo_solve | intros]
    | |- _ => eo_solve
    end.
Qed.

Lemma run_emits ok h env devConfig :
  emits_only ok (RunBlockingSetup h env devConfig) ->
  ok (EvCall COctoEverywhereRunBlocking) ->
  (forall e, ok (EvSentryException host_crash_msg e)) ->
  (forall lvl m, ok (EvLog lvl m)) ->
  ok (EvCall CLoggingShutdown) ->
  (forall m, ok (EvPrint m)) ->
  emits_only ok (RunBlocking h env devConfig).
Proof.
  intros Hs Hr He Hl Hc Hp. rewrite RunBlocking_eq, RunBlockingBody_eq.
  unfold SentryException, MoonrakerHost.FlushLogs, py_print, log_info, log.
  apply eo_bind; [apply eo_try_except; [apply eo_bind; [exact Hs | intros; eo_solve] | intros; eo_solve]
                 | intros; eo_solve].
Qed.

Lemma RunBlocking_identity_ok h env devConfig :
  emits_only identity_ok (RunBlocking h env devConfig).
Proof.
  apply run_emits; [apply setup_identity_ok | exact I | intros; exact I | intros; exact I | exact I | intros; exact I].
Qed.

(** X2: In a whole run of either host, every relay client creation receives a
    valid printer id and a valid private key, and the ping-pong and Moonraker
    client initialisations receive a valid printer id, whatever the stored
    identity was at boot. *)
Theorem X2_identity_consumers_get_valid_identity h env devConfig printerId privateKey :
  let tr := w_trace (snd (RunBlocking h env devConfig (boot_state printerId privateKey))) in
  (forall uri p k v, In (EvCall (COctoEverywhereCreate uri p k v)) tr ->
     IsPrinterIdValid p = true /\ IsPrivateKeyValid k = true) /\
  (forall p, In (EvCall (COctoPingPongInit p)) tr -> IsPrinterIdValid p = true) /\
  (forall p, In (EvCall (CMoonrakerClientInit p)) tr -> IsPrinterIdValid p = true).
Proof.
  cbv zeta. destruct (RunBlocking_identity_ok h env devConfig (boot_state printerId privateKey))
    as [new [T F]]. rewrite T. cbn [w_trace boot_state app].
  rewrite Forall_forall in F.
  split; [|split]; intros; apply (F _ H).
Qed.

(* relay guard *)
Lemma is_create_inv ev :
  is_create ev -> exists uri p k v, ev = EvCall (COctoEverywhereCreate uri p k v).
Proof.
  destruct ev as [c| | |]; try contradiction. destruct c; try contradiction.
  intros _. eexists _, _, _, _. reflexivity.
Qed.

Lemma guard_no_run new :
  ~ In (EvCall COctoEverywhereRunBlocking) new -> run_guarded new.
Proof.
  intros H a b E. exfalso. apply H. rewrite E. apply in_or_app. right. left. reflexivity.
Qed.

Lemma guard_app n1 n2 :
  run_guarded n1 -> (run_guarded n2 \/ exists ev, is_create ev /\ In ev n1) ->
  run_guarded (app n1 n2).
Proof.
  intros G1 G2 a b E. destruct (app_eq_app _ _ _ _ E) as [l [[E1 E2] | [E1 E2]]].
  - destruct l as [|x l].
    + rewrite app_nil_r in E1. subst a. cbn in E2.
      destruct G2 as [G2 | G2]; [|exact G2].
      destruct (G2 [] b (eq_sym E2)) as [ev [_ []]].
    + injection E2 as <- E2. destruct (G1 a l E1) as [ev [Hc Hi]]. exists ev. split; assumption.
  - subst a. destruct G2 as [G2 | [ev [Hc Hi]]].
    + destruct (G2 l b E2) as [ev [Hc Hi]]. exists ev. split; [exact Hc | apply in_or_app; right; exact Hi].
    + exists ev. split; [exact Hc | apply in_or_app; left; exact Hi].
Qed.

Lemma rg_of_eo {A} (m : M A) :
  emits_only (fun ev => ev <> EvCall COctoEverywhereRunBlocking) m -> relay_guarded m.
Proof.
  intros H w. destruct (H w) as [new [T F]]. exists new. split; [exact T|].
  apply guard_no_run. intros Hin. rewrite Forall_forall in F. exact (F _ Hin eq_refl).
Qed.

Lemma rg_bind {A B} (m : M A) (k : A -> M B) :
  relay_guarded m -> (forall a, relay_guarded (k a)) -> relay_guarded (bind m k).
Proof.
  intros Hm Hk w. unfold bind. destruct (Hm w) as [n1 [T1 G1]].
  destruct (m w) as [[a|e] w1]; cbn in T1 |- *.
  - destruct (Hk a w1) as [n2 [T2 G2]]. exists (app n1 n2).
    split; [rewrite T2, T1; symmetry; apply app_assoc|].
    apply guard_app; [exact G1 | left; exact G2].
  - exists n1. split; assumption.
Qed.

Lemma rg_try_except {A} (m : M A) (h : Exn -> M A) :
  relay_guarded m -> (forall e, relay_guarded (h e)) -> relay_guarded (try_except m h).
Proof.
  intros Hm Hh w. unfold try_except. destruct (Hm w) as [n1 [T1 G1]].
  destruct (m w) as [[a|e] w1]; cbn in T1 |- *; [exists n1; split; assumption|].
  destruct (is_Exception e); [|exists n1; split; assumption].
  destruct (Hh e w1) as [n2 [T2 G2]]. exists (app n1 n2).
  split; [rewrite T2, T1; symmetry; apply app_assoc|].
  apply guard_app; [exact G1 | left; exact G2].
Qed.

Lemma oh_weaken {A} (P Q : Event -> Prop) (m : M A) :
  (forall ev, P ev -> Q ev) -> ok_has P m -> ok_has Q m.
Proof.
  intros HPQ H w a Ha. destruct (H w a Ha) as [new [ev [T [Hp Hi]]]].
  exists new, ev. split; [exact T|]. split; [apply HPQ; exact Hp | exact Hi].
Qed.

(** A startup that completes has created the relay client. *)
Lemma setup_creates h env devConfig :
  ok_has is_create (RunBlockingSetup h env devConfig).
Proof.
  destruct h; unfold_setup;
  repeat match goal with
    | |- ok_has _ (bind (MoonrakerHost.DoFirstTimeSetupIfNeeded ?env) _) =>
        apply oh_bind; [exact (bootstrap_emits _ Moonraker env (fun _ _ => I) (fun _ => I) (fun _ => I) I) | intros]
    | |- ok_has _ (bind (BambuHost.DoFirstTimeSetupIfNeeded ?env) _) =>
        apply oh_bind; [exact (bootstrap_emits _ Bambu env (fun _ _ => I) (fun _ => I) (fun _ => I) I) | intros]
    | |- ok_has _ (bind _ _) => apply oh_bind; [eo_solve | intros]
    | |- ok_has _ (ext _ _) => apply oh_ext; exact I
    end.
Qed.

Lemma setup_never_runs h env devConfig :
  emits_only (fun ev => ev <> EvCall COctoEverywhereRunBlocking) (RunBlockingSetup h env devConfig).
Proof.
  destruct h; unfold_setup;
  repeat match goal with
    | |- emits_only _ (bind (MoonrakerHost.DoFirstTimeSetupIfNeeded ?env) _) =>
        apply eo_bind; [apply (bootstrap_emits _ Moonraker env); discriminate | intros]
    | |- emits_only _ (bind (BambuHost.DoFirstTimeSetupIfNeeded ?env) _) =>
        apply eo_bind; [apply (bootstrap_emits _ Bambu env); discriminate | intros]
    | |- emits_only _ (bind _ _) => apply eo_bind; [eo_solve; discriminate | intros]
    | |- _ => eo_solve; discriminate
    end.
Qed.

Lemma body_relay_guarded h env devConfig :
  relay_guarded (RunBlockingBody h env devConfig).
Proof.
  rewrite RunBlockingBody_eq. intros w. unfold bind.
  destruct (setup_never_runs h env devConfig w) as [n1 [T1 F1]].
  pose proof (setup_creates h env devConfig w) as C.
  destruct (RunBlockingSetup h env devConfig w) as [[a|e] w1]; cbn in T1, C |- *.
  - destruct (C a eq_refl) as [n1' [ev [T1' [Hc Hi]]]].
    rewrite T1 in T1'. apply app_inv_head in T1'. subst n1'.
    unfold ext, bind, emit; destruct (env_raises env COctoEverywhereRunBlocking); cbn;
    (exists (app n1 [EvCall COctoEverywhereRunBlocking]); split;
      [rewrite T1; symmetry; apply app_assoc
      | apply guard_app;
        [apply guard_no_run; intros Hin; rewrite Forall_forall in F1; exact (F1 _ Hin eq_refl)
        | right; exists ev; split; assumption]]).
  - exists n1. split; [exact T1|]. apply guard_no_run. intros Hin. rewrite Forall_forall in F1.
    exact (F1 _ Hin eq_refl).
Qed.

(** X3: In a run of either host, every entry into the relay's blocking run
    loop is preceded in the trace by the creation of a relay client, and that
    creation received a valid identity. *)
Theorem X3_relay_runs_only_after_create h env devConfig printerId privateKey :
  forall pre post,
    w_trace (snd (RunBlocking h env devConfig (boot_state printerId privateKey))) =
      (pre ++ EvCall COctoEverywhereRunBlocking :: post)%list ->
    exists uri p k v, In (EvCall (COctoEverywhereCreate uri p k v)) pre /\
      IsPrinterIdValid p = true /\ IsPrivateKeyValid k = true.
Proof.
  intros pre post E.
  assert (G : relay_guarded (RunBlocking h env devConfig)).
  { rewrite RunBlocking_eq. apply rg_bind; [apply rg_try_except; [apply body_relay_guarded|] |];
    intros; apply rg_of_eo; unfold SentryException, MoonrakerHost.FlushLogs, py_print, log_info, log;
    eo_solve; discriminate. }
  destruct (G (boot_state printerId privateKey)) as [new [T Gn]].
  destruct (RunBlocking_identity_ok h env devConfig (boot_state printerId privateKey)) as [new' [T' F]].
  rewrite T in T'. apply app_inv_head in T'. subst new'.
  rewrite T in E. cbn [w_trace boot_state app] in E. subst new.
  destruct (Gn pre post eq_refl) as [ev [Hc Hi]].
  destruct (is_create_inv ev Hc) as [uri [p [k [v ->]]]].
  rewrite Forall_forall in F. exists uri, p, k, v. split; [exact Hi|].
  apply (F (EvCall (COctoEverywhereCreate uri p k v))). apply in_or_app. left. exact Hi.
Qed.

Lemma X3_witness :
  exists pre post,
    w_trace (snd (RunBlocking Moonraker env_ok None (boot_state None None))) =
      (pre ++ EvCall COctoEverywhereRunBlocking :: post)%list /\
    exists uri p k v, In (EvCall (COctoEverywhereCreate uri p k v)) pre /\
      IsPrinterIdValid p = true /\ IsPrivateKeyValid k = true.
Proof.
  assert (H : In (EvCall COctoEverywhereRunBlocking)
     (w_trace (snd (RunBlocking Moonraker env_ok None (boot_state None None))))) by (vm_compute; tauto).
  destruct (in_split _ _ H) as [pre [post E]].
  exists pre, post. split; [exact E|].
  exact (X3_relay_runs_only_after_create Moonraker env_ok None None None pre post E).
Defined.

Lemma bambu_setup_dev_ok env devConfig :
  emits_only (bambu_dev_ok env (BambuHost.GetDevConfigStr devConfig "LocalServerAddress"))
    (RunBlockingSetup Bambu env devConfig).
Proof.
  unfold_setup. destruct (BambuHost.GetDevConfigStr devConfig "LocalServerAddress") as [d|] eqn:Hd;
  repeat match goal with
    | |- emits_only _ (bind (BambuHost.DoFirstTimeSetupIfNeeded ?env) _) =>
        apply eo_bind; [apply (bootstrap_emits _ Bambu env); intros; exact I | intros]
    | |- emits_only _ (bind _ _) => apply eo_bind; [eo_solve | intros]
    | |- _ => eo_solve
    end;
  first [ discriminate | eexists; split; reflexivity ].
Qed.

Lemma moonraker_setup_cfg_ok env devConfig :
  emits_only (moonraker_cfg_ok env) (RunBlockingSetup Moonraker env devConfig).
Proof.
  unfold_setup.
  repeat match goal with
    | |- emits_only _ (bind (MoonrakerHost.DoFirstTimeSetupIfNeeded ?env) _) =>
        apply eo_bind; [apply (bootstrap_emits _ Moonraker env); intros; exact I | intros]
    | |- emits_only _ (bind _ _) => apply eo_bind; [eo_solve | intros]
    | |- _ => eo_solve
    end.
Qed.

(** X4: Bambu startup routes by the dev config's [LocalServerAddress]: the relay
    client connects to [ws://<addr>/octoclientws] when it is set and to the
    production URI otherwise; the telemetry server is overridden (to
    [http://<addr>]) and the primary-server override disabled only when it is
    set; the relay gets the plugin version. *)
Theorem X4_bambu_dev_server_routing env devConfig printerId privateKey :
  let dev := BambuHost.GetDevConfigStr devConfig "LocalServerAddress" in
  let tr := w_trace (snd (RunBlocking Bambu env devConfig (boot_state printerId privateKey))) in
  (forall uri p k v, In (EvCall (COctoEverywhereCreate uri p k v)) tr ->
     uri = match dev with
           | Some d => "ws://" ++ d ++ "/octoclientws"
           | None => c_OctoEverywhereOctoClientWsUri
           end /\ v = env_plugin_version env) /\
  (forall x, In (EvCall (CTelemetrySetServerProtocolAndDomain x)) tr ->
     exists d, dev = Some d /\ x = "http://" ++ d) /\
  (In (EvCall COctoPingPongDisablePrimaryOverride) tr -> dev <> None).
Proof.
  cbv zeta.
  assert (E : emits_only (bambu_dev_ok env (BambuHost.GetDevConfigStr devConfig "LocalServerAddress"))
                (RunBlocking Bambu env devConfig))
    by (apply run_emits; [apply bambu_setup_dev_ok | exact I | intros; exact I | intros; exact I
                          | exact I | intros; exact I]).
  destruct (E (boot_state printerId privateKey)) as [new [T F]]. rewrite T.
  cbn [w_trace boot_state app]. rewrite Forall_forall in F.
  split; [|split]; intros; apply (F _ H).
Qed.

(** X5: Moonraker startup always connects the relay client to the production URI
    with the plugin version, sets both local proxy ports to the configured
    frontend port and HTTPS to false, and never overrides the telemetry server
    or disables the primary-server override. *)
Theorem X5_moonraker_relay_configuration env devConfig printerId privateKey :
  let tr := w_trace (snd (RunBlocking Moonraker env devConfig (boot_state printerId privateKey))) in
  (forall uri p k v, In (EvCall (COctoEverywhereCreate uri p k v)) tr ->
     uri = c_OctoEverywhereOctoClientWsUri /\ v = env_plugin_version env) /\
  (forall port, In (EvCall (COctoHttpRequestSetLocalHttpProxyPort port)) tr -> port = env_frontend_port env) /\
  (forall b, In (EvCall (COctoHttpRequestSetLocalHttpProxyIsHttps b)) tr -> b = false) /\
  (forall port, In (EvCall (COctoHttpRequestSetLocalOctoPrintPort port)) tr -> port = env_frontend_port env) /\
  (forall x, ~ In (EvCall (CTelemetrySetServerProtocolAndDomain x)) tr) /\
  ~ In (EvCall COctoPingPongDisablePrimaryOverride) tr.
Proof.
  cbv zeta.
  assert (E : emits_only (moonraker_cfg_ok env) (RunBlocking Moonraker env devConfig))
    by (apply run_emits; [apply moonraker_setup_cfg_ok | exact I | intros; exact I | intros; exact I
                          | exact I | intros; exact I]).
  destruct (E (boot_state printerId privateKey)) as [new [T F]]. rewrite T.
  cbn [w_trace boot_state app]. rewrite Forall_forall in F.
  split; [|split; [|split; [|split; [|split]]]]; intros; try intro; apply (F _ H).
Qed.

(** X6: With a valid stored printer id and private key, the bootstrap of either
    host is a no-op: it returns normally and leaves the identity and the trace
    (no log, no call) untouched. *)
Theorem X6_valid_identity_bootstrap_is_noop h env w :
  IsPrinterIdValid (w_printer_id w) = true ->
  IsPrivateKeyValid (w_private_key w) = true ->
  DoFirstTimeSetupIfNeeded h env w = (Ok tt, w).
Proof. apply bootstrap_noop. Qed.

(** X7: The bootstrap is idempotent: after a bootstrap that returned normally, a
    second one changes nothing. *)
Theorem X7_bootstrap_idempotent h env w :
  fst (DoFirstTimeSetupIfNeeded h env w) = Ok tt ->
  DoFirstTimeSetupIfNeeded h env (snd (DoFirstTimeSetupIfNeeded h env w)) =
  (Ok tt, snd (DoFirstTimeSetupIfNeeded h env w)).
Proof.
  intros H. destruct (bootstrap_ok_valid h env w H) as [H1 H2].
  apply bootstrap_noop; assumption.
Qed.

(** X8: After restarting a non-empty set of services, DoUpdate reports the plugin
    version in its success banner; if the version lookup raises an [Exception]
    it logs the warning and the banner says [Unknown], and a non-[Exception]
    error of the lookup propagates with no banner. *)
Theorem X8_update_version_fallback p env w :
  env_raises env CListDir = None ->
  selected_services p (env_listdir env) <> [] ->
  let r := Updater.DoUpdate p env w in
  match env_raises env CVersionGetPluginVersion with
  | None =>
      fst r = Ok tt /\
      exists pre, w_trace (snd r) = (pre ++ update_banner_events (env_plugin_version env))%list
  | Some e =>
      if is_Exception e then
        fst r = Ok tt /\
        exists pre, w_trace (snd r) =
          (pre ++ [EvLog LWarning ("Failed to parse setup.py for plugin version. " ++ exn_msg e)] ++
          update_banner_events "Unknown")%list
      else
        fst r = Raise e /\ exists pre, w_trace (snd r) = (pre ++ [EvCall CVersionGetPluginVersion])%list
  end.
Proof.
  intros Hl Hs. cbv zeta. rewrite (DoUpdate_eq p env w Hl). cbv zeta.
  destruct (selected_services p (env_listdir env)) as [|s found]; [congruence|].
  rewrite ReportUpdateDone_eq.
  destruct (env_raises env CVersionGetPluginVersion) as [e|]; [destruct (is_Exception e)|];
    cbn [fst snd]; (split; [reflexivity|]); unfold with_trace at 1; cbn [w_trace].
  - match goal with |- exists pre, (?X ++ [?a; _] ++ _)%list = _ =>
      exists (X ++ [a])%list; rewrite <- app_assoc; reflexivity end.
  - eexists. reflexivity.
  - match goal with |- exists pre, (?X ++ [?a] ++ _)%list = _ =>
      exists (X ++ [a])%list; rewrite <- app_assoc; reflexivity end.
Qed.

Lemma X8_witness :
  env_raises env_version_fails CListDir = None /\
  selected_services Configure_c_ServiceCommonNamePrefix (env_listdir env_version_fails) <> [] /\
  fst (Updater.DoUpdate Configure_c_ServiceCommonNamePrefix env_version_fails (boot_state None None)) = Ok tt /\
  exists pre,
    w_trace (snd (Updater.DoUpdate Configure_c_ServiceCommonNamePrefix env_version_fails (boot_state None None))) =
    (pre ++ [EvLog LWarning ("Failed to parse setup.py for plugin version. " ++ exn_msg io_error)] ++
    update_banner_events "Unknown")%list.
Proof.
  assert (H1 : env_raises env_version_fails CListDir = None) by reflexivity.
  assert (H2 : selected_services Configure_c_ServiceCommonNamePrefix (env_listdir env_version_fails) <> [])
    by (vm_compute; discriminate).
  split; [exact H1|]. split; [exact H2|].
  exact (X8_update_version_fallback Configure_c_ServiceCommonNamePrefix env_version_fails
           (boot_state None None) H1 H2).
Defined.

(** X9: If listing the systemd directory raises, DoUpdate propagates that
    exception right after the header log and the listing attempt: no service
    is searched for or restarted. *)
Theorem X9_listdir_failure_propagates p env w e :
  env_raises env CListDir = Some e ->
  Updater.DoUpdate p env w =
  (Raise e, with_trace w [EvLog LHeader "Starting Update Logic"; EvCall CListDir]).
Proof.
  intros H. unfold Updater.DoUpdate, Logger_Header, log.
  rewrite (bind_ok _ _ _ _ _ (emit_with_trace _ _)).
  unfold bind at 1. unfold listdir, ext, bind at 1 2, emit, raise. rewrite H.
  unfold with_trace. cbn. rewrite <- app_assoc. reflexivity.
Qed.

Lemma X6_witness :
  DoFirstTimeSetupIfNeeded Bambu env_ok (boot_state (Some (GeneratePrinterId (fun i => 3 * i))) (Some (GeneratePrivateKey (fun i => 5 + i)))) =
  (Ok tt, boot_state (Some (GeneratePrinterId (fun i => 3 * i))) (Some (GeneratePrivateKey (fun i => 5 + i)))).
Proof. apply X6_valid_identity_bootstrap_is_noop; vm_compute; reflexivity. Defined.

Lemma X7_witness :
  fst (DoFirstTimeSetupIfNeeded Moonraker env_ok (boot_state None None)) = Ok tt /\
  DoFirstTimeSetupIfNeeded Moonraker env_ok (snd (DoFirstTimeSetupIfNeeded Moonraker env_ok (boot_state None None))) =
  (Ok tt, snd (DoFirstTimeSetupIfNeeded Moonraker env_ok (boot_state None None))).
Proof.
  assert (H : fst (DoFirstTimeSetupIfNeeded Moonraker env_ok (boot_state None None)) = Ok tt)
    by (vm_compute; reflexivity).
  split; [exact H | exact (X7_bootstrap_idempotent Moonraker env_ok (boot_state None None) H)].
Defined.

Lemma X9_witness :
  Updater.DoUpdate Configure_c_ServiceCommonNamePrefix env_listdir_fails (boot_state None None) =
  (Raise io_error, with_trace (boot_state None None) [EvLog LHeader "Starting Update Logic"; EvCall CListDir]).
Proof. apply X9_listdir_failure_propagates; reflexivity. Defined.

Lemma fs_lookup_set_eq files p f : fs_lookup (fs_set files p f) p = Some f.
Proof.
  induction files as [|[q g] files IH]; cbn.
  - rewrite String.eqb_refl. reflexivity.
  - destruct (String.eqb p q) eqn:E; cbn; rewrite ?E; [reflexivity|]. exact IH.
Qed.

Ltac place_unfold :=
  unfold PlaceUpdateScriptInRoot, place_failure, ftry_except, fbind, fs_open_w, fs_write,
    fs_stat, fs_chmod, put_file, Logger_Error_fs, fret; cbv zeta.

(** X10: PlaceUpdateScriptInRoot returns [True] when none of open, write, stat and
    chmod raises; on the first one that raises an [Exception] it logs one error
    with the exception's text and returns [False]; a non-[Exception] error
    propagates; nothing else is logged. *)
Theorem X10_place_script_outcome fenv context fw :
  let p := path_join (ctx_UserHomePath context) update_file_name in
  let r := PlaceUpdateScriptInRoot fenv context fw in
  match place_failure fenv p with
  | None => fst r = Ok true /\ fs_log (snd r) = fs_log fw
  | Some e =>
      if is_Exception e then
        fst r = Ok false /\
        fs_log (snd r) = (fs_log fw ++
          [EvLog LError ("Failed to write updater script to user home. " ++ exn_msg e)])%list
      else fst r = Raise e /\ fs_log (snd r) = fs_log fw
  end.
Proof.
  cbv zeta. place_unfold.
  set (p := path_join (ctx_UserHomePath context) update_file_name).
  destruct (fs_raises fenv OpOpen p) as [e|];
    [destruct (is_Exception e); split; reflexivity|].
  cbn [fs_files fs_log]. rewrite fs_lookup_set_eq.
  destruct (fs_raises fenv OpWrite p) as [e|];
    [destruct (is_Exception e); split; reflexivity|].
  cbn [fs_files fs_log]. rewrite fs_lookup_set_eq.
  destruct (fs_raises fenv OpStat p) as [e|];
    [destruct (is_Exception e); split; reflexivity|].
  cbn [fs_files fs_log]. rewrite fs_lookup_set_eq.
  destruct (fs_raises fenv OpChmod p) as [e|];
    [destruct (is_Exception e); split; reflexivity|].
  split; reflexivity.
Qed.

(** X11: When PlaceUpdateScriptInRoot returns [True], the file
    [<home>/update-octoeverywhere.sh] holds the update script for the repo root
    and its mode is its previous mode (or the new-file mode) with the owner's
    execute bit added. *)
Theorem X11_place_script_success fenv context fw :
  let p := path_join (ctx_UserHomePath context) update_file_name in
  let r := PlaceUpdateScriptInRoot fenv context fw in
  fst r = Ok true ->
  fs_lookup (fs_files (snd r)) p =
  Some (update_script (ctx_RepoRootFolder context),
        Z.lor (match fs_lookup (fs_files fw) p with
               | Some (_, mode) => mode
               | None => fs_new_mode fenv
               end) S_IEXEC).
Proof.
  cbv zeta. place_unfold.
  set (p := path_join (ctx_UserHomePath context) update_file_name).
  destruct (fs_raises fenv OpOpen p) as [e|];
    [destruct (is_Exception e); discriminate|].
  cbn [fs_files fs_log]. rewrite fs_lookup_set_eq.
  destruct (fs_raises fenv OpWrite p) as [e|];
    [destruct (is_Exception e); discriminate|].
  cbn [fs_files fs_log]. rewrite fs_lookup_set_eq.
  destruct (fs_raises fenv OpStat p) as [e|];
    [destruct (is_Exception e); discriminate|].
  cbn [fs_files fs_log]. rewrite fs_lookup_set_eq.
  destruct (fs_raises fenv OpChmod p) as [e|];
    [destruct (is_Exception e); discriminate|].
  intros _. cbn [fs_files snd]. apply fs_lookup_set_eq.
Qed.

Lemma X11_witness :
  fst (PlaceUpdateScriptInRoot home_fenv home_context home_fs) = Ok true /\
  fs_lookup (fs_files (snd (PlaceUpdateScriptInRoot home_fenv home_context home_fs)))
    "/home/pi/update-octoeverywhere.sh" =
  Some (update_script "/home/pi/octoeverywhere", Z.lor 420%Z S_IEXEC).
Proof.
  assert (H : fst (PlaceUpdateScriptInRoot home_fenv home_context home_fs) = Ok true)
    by (vm_compute; reflexivity).
  split; [exact H | exact (X11_place_script_success home_fenv home_context home_fs H)].
Defined.

(** ** How a startup run ends *)

Lemma FlushLogs_eq env w :
  MoonrakerHost.FlushLogs env w = (flush_result env, with_trace w (flush_tail env)).
Proof.
  destruct w as [pid key tr].
  unfold MoonrakerHost.FlushLogs, try_except, log_info, log, ext, py_print, bind, emit, ret, raise,
    with_trace, flush_tail, flush_result, flush_events, flush_print.
  destruct (env_raises env CLoggingShutdown) as [e|]; [destruct (is_Exception e)|]; cbn;
    rewrite <- ?app_assoc; reflexivity.
Qed.

Lemma flush_tail_calls env c : In (EvCall c) (flush_tail env) -> c = CLoggingShutdown.
Proof.
  unfold flush_tail, flush_events, flush_print.
  destruct (env_raises env CLoggingShutdown) as [e|]; [destruct (is_Exception e)|]; cbn;
    intros H; repeat destruct H as [H|H]; try discriminate; try contradiction; congruence.
Qed.

Lemma flush_tail_shutdown env : In (EvCall CLoggingShutdown) (flush_tail env).
Proof.
  unfold flush_tail, flush_events.
  destruct (env_raises env CLoggingShutdown) as [e|]; [destruct (is_Exception e)|]; cbn; tauto.
Qed.

Lemma RunBlocking_cases h env devConfig w :
  RunBlocking h env devConfig w =
  match RunBlockingBody h env devConfig w with
  | (Ok _, wb) => MoonrakerHost.FlushLogs env wb
  | (Raise e, wb) =>
      if is_Exception e
      then MoonrakerHost.FlushLogs env (with_trace wb [EvSentryException host_crash_msg e])
      else (Raise e, wb)
  end.
Proof.
  rewrite RunBlocking_eq. unfold bind, try_except.
  destruct (RunBlockingBody h env devConfig w) as [[u|e] wb]; [reflexivity|].
  destruct (is_Exception e); reflexivity.
Qed.

Lemma body_aborts_at_raise h env devConfig :
  aborts_at_raise env (RunBlockingBody h env devConfig).
Proof.
  rewrite RunBlockingBody_eq. apply aborts_bind; [apply setup_aborts_at_raise | intros; apply aborts_ext].
Qed.

Lemma body_never_flushes h env devConfig :
  emits_only (fun ev => ev <> EvCall CLoggingShutdown) (RunBlockingBody h env devConfig).
Proof.
  rewrite RunBlockingBody_eq. apply eo_bind; [|intros; apply eo_ext; discriminate].
  destruct h; unfold_setup;
  repeat match goal with
    | |- emits_only _ (bind (MoonrakerHost.DoFirstTimeSetupIfNeeded ?env) _) =>
        apply eo_bind; [apply (bootstrap_emits _ Moonraker env); discriminate | intros]
    | |- emits_only _ (bind (BambuHost.DoFirstTimeSetupIfNeeded ?env) _) =>
        apply eo_bind; [apply (bootstrap_emits _ Bambu env); discriminate | intros]
    | |- emits_only _ (bind _ _) => apply eo_bind; [eo_solve; discriminate | intros]
    | |- _ => eo_solve; discriminate
    end.
Qed.

(** The body of a run from the boot state, with what the code guarantees
    about the calls it recorded. *)
Lemma body_facts h env devConfig (w : World) :
  exists bn,
    w_trace (snd (RunBlockingBody h env devConfig w)) = (w_trace w ++ bn)%list /\
    ~ In (EvCall CLoggingShutdown) bn /\
    match fst (RunBlockingBody h env devConfig w) with
    | Ok _ => clean env bn
    | Raise e => exists pre c, bn = (pre ++ [EvCall c])%list /\ clean env pre /\
                   env_raises env c = Some e /\
                   (c = COctoEverywhereRunBlocking \/ ~ In (EvCall COctoEverywhereRunBlocking) bn)
    end.
Proof.
  destruct (body_aborts_at_raise h env devConfig w) as [bn [T A]].
  destruct (body_never_flushes h env devConfig w) as [bn' [T' F]].
  destruct (RunBlockingBody_shape h env devConfig w) as [bn'' [T'' S]].
  rewrite T in T', T''. apply app_inv_head in T'. apply app_inv_head in T''. subst bn' bn''.
  exists bn. split; [exact T|]. split.
  - rewrite Forall_forall in F. intros Hin. exact (F _ Hin eq_refl).
  - destruct (fst (RunBlockingBody h env devConfig w)) as [u|e] eqn:E; [exact A|].
    destruct A as [pre [c [-> [Hpre Hc]]]]. exists pre, c. split; [reflexivity|].
    split; [exact Hpre|]. split; [exact Hc|].
    apply (S c e Hc). apply in_or_app. right. left. reflexivity.
Qed.

(** C9 *)
(** Claim C9, as the code has it: an [Exception] raised while initialising a
    supporting subsystem is not recovered from.  The failing call is the last
    startup step that runs: it is followed directly by the Sentry report of
    [RunBlocking]'s single handler and then only by the exit log flush, whose
    sole call is [logging.shutdown].  The remaining subsystem setups and the
    relay client's run loop are skipped. *)
Theorem C9_subsystem_failure_ends_startup :
  forall (h : Host) (env : Env) devConfig (printerId privateKey : option string)
         (c : Call) (e : Exn),
    is_subsystem_init c = true -> env_raises env c = Some e -> is_Exception e = true ->
    In (EvCall c) (w_trace (snd (RunBlocking h env devConfig (boot_state printerId privateKey)))) ->
    exists pre tail,
      w_trace (snd (RunBlocking h env devConfig (boot_state printerId privateKey))) =
        (pre ++ EvCall c :: EvSentryException host_crash_msg e :: tail)%list /\
      (forall c', In (EvCall c') tail -> c' = CLoggingShutdown) /\
      In (EvCall CLoggingShutdown) tail /\
      ~ In (EvCall COctoEverywhereRunBlocking)
           (w_trace (snd (RunBlocking h env devConfig (boot_state printerId privateKey)))).
Proof.
  intros h env devConfig printerId privateKey c e Hs Hc Hexn.
  assert (Hfl : c <> CLoggingShutdown) by (intros ->; discriminate Hs).
  assert (Hrl : c <> COctoEverywhereRunBlocking) by (intros ->; discriminate Hs).
  rewrite RunBlocking_cases.
  destruct (body_facts h env devConfig (boot_state printerId privateKey)) as [bn [T [F A]]].
  rewrite boot_state_trace in T. cbn [app] in T.
  destruct (RunBlockingBody h env devConfig (boot_state printerId privateKey)) as [[u|eb] wb];
    cbn [fst snd] in T, A |- *.
  - rewrite FlushLogs_eq. unfold with_trace. cbn [w_trace snd]. rewrite T. intros Hin.
    exfalso. apply in_app_or in Hin as [Hin|Hin].
    + rewrite (A c Hin) in Hc. discriminate.
    + exact (Hfl (flush_tail_calls env c Hin)).
  - destruct A as [pre [c' [-> [Hpre [Hc' Hrel]]]]].
    destruct (is_Exception eb) eqn:Heb.
    + rewrite FlushLogs_eq. unfold with_trace. cbn [w_trace snd]. rewrite T. intros Hin.
      rewrite <- !app_assoc in Hin |- *. cbn [app] in Hin |- *.
      apply in_app_or in Hin as [Hin|Hin]; [rewrite (Hpre c Hin) in Hc; discriminate|].
      destruct Hin as [Hin|Hin].
      * injection Hin as <-. rewrite Hc' in Hc. injection Hc as <-.
        exists pre, (flush_tail env). split; [reflexivity|].
        split; [apply flush_tail_calls|]. split; [apply flush_tail_shutdown|].
        destruct Hrel as [Hrel|Hrel]; [contradiction|].
        intros Hr. apply in_app_or in Hr as [Hr|Hr]; [apply Hrel; apply in_or_app; left; exact Hr|].
        destruct Hr as [Hr|Hr]; [injection Hr as ->; contradiction|].
        destruct Hr as [Hr|Hr]; [discriminate|]. apply flush_tail_calls in Hr. discriminate.
      * exfalso. destruct Hin as [Hin|Hin]; [discriminate|]. exact (Hfl (flush_tail_calls env c Hin)).
    + cbn [snd]. rewrite T. intros Hin. exfalso.
      apply in_app_or in Hin as [Hin|[Hin|[]]]; [rewrite (Hpre c Hin) in Hc; discriminate|].
      injection Hin as <-. rewrite Hc' in Hc. injection Hc as <-. congruence.
Qed.

(** The three ways a run from the boot state ends. *)
Lemma RunBlocking_outcome h env devConfig printerId privateKey :
  let r := RunBlocking h env devConfig (boot_state printerId privateKey) in
  (exists bn, clean env bn /\ ~ In (EvCall CLoggingShutdown) bn /\
     w_trace (snd r) = (bn ++ flush_tail env)%list /\ fst r = flush_result env) \/
  (exists pre c e, clean env pre /\ ~ In (EvCall CLoggingShutdown) (pre ++ [EvCall c])%list /\
     env_raises env c = Some e /\ is_Exception e = true /\
     w_trace (snd r) = (pre ++ EvCall c :: EvSentryException host_crash_msg e :: flush_tail env)%list /\
     fst r = flush_result env) \/
  (exists pre c e, clean env pre /\ ~ In (EvCall CLoggingShutdown) (pre ++ [EvCall c])%list /\
     env_raises env c = Some e /\ is_Exception e = false /\
     w_trace (snd r) = (pre ++ [EvCall c])%list /\ fst r = Raise e).
Proof.
  cbv zeta. rewrite RunBlocking_cases.
  destruct (body_facts h env devConfig (boot_state printerId privateKey)) as [bn [T [F A]]].
  rewrite boot_state_trace in T. cbn [app] in T.
  destruct (RunBlockingBody h env devConfig (boot_state printerId privateKey)) as [[u|eb] wb];
    cbn [fst snd] in T, A |- *.
  - left. exists bn. rewrite FlushLogs_eq. unfold with_trace. cbn [w_trace fst snd]. rewrite T.
    repeat split; assumption.
  - destruct A as [pre [c [-> [Hpre [Hc _]]]]].
    destruct (is_Exception eb) eqn:Heb.
    + right. left. exists pre, c, eb. rewrite FlushLogs_eq. unfold with_trace.
      cbn [w_trace fst snd]. rewrite T, <- !app_assoc. repeat split; assumption.
    + right. right. exists pre, c, eb. cbn [fst snd]. rewrite T. repeat split; assumption.
Qed.

(** C10 *)
(** Claim C10, as the code has it: [RunBlocking] returns normally, having
    attempted the exit log flush, or propagates a [BaseException] that is not
    an [Exception] ([KeyboardInterrupt], [SystemExit]).  An exception raised
    before the flush (version lookup, bootstrap, subsystem setup, relay run
    loop) is, if an [Exception], reported to Sentry and followed by the flush;
    otherwise it is what [RunBlocking] raises, and the flush is skipped.  An
    [Exception] of the flush is caught and printed; any other propagates. *)
Theorem C10_RunBlocking_catches_Exceptions :
  forall (h : Host) (env : Env) devConfig (printerId privateKey : option string),
    let r := RunBlocking h env devConfig (boot_state printerId privateKey) in
    match fst r with
    | Ok _ => In (EvCall CLoggingShutdown) (w_trace (snd r))
    | Raise e => is_Exception e = false
    end /\
    (forall c e, env_raises env c = Some e -> c <> CLoggingShutdown -> In (EvCall c) (w_trace (snd r)) ->
       if is_Exception e
       then In (EvSentryException host_crash_msg e) (w_trace (snd r)) /\
            In (EvCall CLoggingShutdown) (w_trace (snd r))
       else fst r = Raise e /\ ~ In (EvCall CLoggingShutdown) (w_trace (snd r))) /\
    (forall e, env_raises env CLoggingShutdown = Some e -> In (EvCall CLoggingShutdown) (w_trace (snd r)) ->
       if is_Exception e
       then fst r = Ok tt /\ In (EvPrint ("Exception in logging.shutdown " ++ exn_msg e)) (w_trace (snd r))
       else fst r = Raise e).
Proof.
  intros h env devConfig printerId privateKey r.
  assert (Hfr : forall e, flush_result env = Raise e -> is_Exception e = false).
  { unfold flush_result. intros e. destruct (env_raises env CLoggingShutdown) as [e'|]; [|discriminate].
    destruct (is_Exception e') eqn:E; [discriminate|]. intros H; injection H as <-; exact E. }
  assert (Hfs : forall e, env_raises env CLoggingShutdown = Some e ->
            if is_Exception e
            then flush_result env = Ok tt /\ In (flush_print e) (flush_tail env)
            else flush_result env = Raise e).
  { intros e He. unfold flush_result, flush_tail. rewrite He. destruct (is_Exception e); [|reflexivity].
    split; [reflexivity|]. apply in_or_app. right. left. reflexivity. }
  assert (Hft : forall bn, (exists u, flush_result env = Ok u) -> In (EvCall CLoggingShutdown) (bn ++ flush_tail env)%list).
  { intros bn _. apply in_or_app. right. apply flush_tail_shutdown. }
  destruct (RunBlocking_outcome h env devConfig printerId privateKey)
    as [[bn [Cl [F [T R]]]] | [[pre [c0 [e0 [Cl [F [Hc0 [Hx [T R]]]]]]]] | [pre [c0 [e0 [Cl [F [Hc0 [Hx [T R]]]]]]]]]];
    fold r in T, R; rewrite T, R.
  - split; [destruct (flush_result env) eqn:E; [apply Hft; eauto | apply Hfr; reflexivity]|].
    split.
    + intros c e Hc Hne Hin. exfalso. apply in_app_or in Hin as [Hin|Hin].
      * rewrite (Cl c Hin) in Hc. discriminate.
      * exact (Hne (flush_tail_calls env c Hin)).
    + intros e He _. specialize (Hfs e He). destruct (is_Exception e); [|exact Hfs].
      destruct Hfs as [H1 H2]. split; [exact H1|]. apply in_or_app. right. exact H2.
  - assert (Hsh : In (EvCall CLoggingShutdown)
                     (pre ++ EvCall c0 :: EvSentryException host_crash_msg e0 :: flush_tail env)%list).
    { apply in_or_app. right. right. right. apply flush_tail_shutdown. }
    split; [destruct (flush_result env) eqn:E; [exact Hsh | apply Hfr; reflexivity]|].
    split.
    + intros c e Hc Hne Hin. apply in_app_or in Hin as [Hin|[Hin|[Hin|Hin]]].
      * rewrite (Cl c Hin) in Hc. discriminate.
      * injection Hin as ->. rewrite Hc0 in Hc. injection Hc as <-. rewrite Hx.
        split; [|exact Hsh]. apply in_or_app. right. right. left. reflexivity.
      * discriminate.
      * exfalso. exact (Hne (flush_tail_calls env c Hin)).
    + intros e He _. specialize (Hfs e He). destruct (is_Exception e); [|exact Hfs].
      destruct Hfs as [H1 H2]. split; [exact H1|]. apply in_or_app. right. right. right. exact H2.
  - split; [exact Hx|]. split.
    + intros c e Hc Hne Hin. apply in_app_or in Hin as [Hin|[Hin|[]]].
      * rewrite (Cl c Hin) in Hc. discriminate.
      * injection Hin as ->. rewrite Hc0 in Hc. injection Hc as <-. rewrite Hx. split; [reflexivity|exact F].
    + intros e _ Hin. contradiction.
Qed.

Lemma C9_witness :
  exists pre tail,
    w_trace (snd (RunBlocking Bambu env_telemetry_fails None (boot_state None None))) =
      (pre ++ EvCall CTelemetryInit :: EvSentryException host_crash_msg io_error :: tail)%list /\
    (forall c', In (EvCall c') tail -> c' = CLoggingShutdown) /\
    In (EvCall CLoggingShutdown) tail /\
    ~ In (EvCall COctoEverywhereRunBlocking)
         (w_trace (snd (RunBlocking Bambu env_telemetry_fails None (boot_state None None)))).
Proof.
  apply (C9_subsystem_failure_ends_startup Bambu env_telemetry_fails None None None
           CTelemetryInit io_error);
    [reflexivity | reflexivity | reflexivity | vm_compute; tauto].
Defined.

Lemma C10_witness :
  (In (EvSentryException host_crash_msg io_error)
      (w_trace (snd (RunBlocking Moonraker env_telemetry_fails None (boot_state None None)))) /\
   In (EvCall CLoggingShutdown)
      (w_trace (snd (RunBlocking Moonraker env_telemetry_fails None (boot_state None None))))) /\
  (fst (RunBlocking Moonraker env_relay_interrupted None (boot_state None None))
     = Raise keyboard_interrupt /\
   ~ In (EvCall CLoggingShutdown)
        (w_trace (snd (RunBlocking Moonraker env_relay_interrupted None (boot_state None None))))).
Proof.
  split.
  - destruct (C10_RunBlocking_catches_Exceptions Moonraker env_telemetry_fails None None None)
      as [_ [H2 _]].
    exact (H2 CTelemetryInit io_error eq_refl ltac:(discriminate) ltac:(vm_compute; tauto)).
  - destruct (C10_RunBlocking_catches_Exceptions Moonraker env_relay_interrupted None None None)
      as [_ [H2 _]].
    exact (H2 COctoEverywhereRunBlocking keyboard_interrupt eq_refl ltac:(discriminate)
             ltac:(vm_compute; tauto)).
Defined.
